(** * Tempo trace pipeline: configuration translation and lifecycle

    A shallow embedding of [pkg/tempo/config.go] and [pkg/tempo/tempo.go].

    The package is a shim around the OpenTelemetry collector.  Everything
    the collector, viper, zap and the filesystem do is taken as an
    interface ([Collector]) whose operations act on an abstract [World];
    every call to such an operation is also appended to an observable
    trace, so that the order of the calls can be stated. *)

From Stdlib Require Import NArith Ascii String.
From stdpp Require Import base option list strings gmap fin_maps.

Local Open Scope string_scope.
Set Warnings "-register-all".

(** ** encoding/base64, [StdEncoding] (RFC 4648, with padding) *)

Module base64.

Definition encodeStd : string :=
  "ABCDEFGHIJKLMNOPQRSTUVWXYZabcdefghijklmnopqrstuvwxyz0123456789+/".

Definition StdPadding : ascii := "="%char.

(** [enc.encode[i]] *)
Definition encode (i : N) : ascii :=
  match String.get (N.to_nat i) encodeStd with
  | Some ch => ch
  | None => StdPadding
  end.

Definition uint (b : ascii) : N := N_of_ascii b.

(** [Encoding.Encode]: whole 3-byte groups give four characters each; a
    remainder of one or two bytes gives two or three characters and is
    padded to four. *)
Fixpoint Encode (src : list ascii) : list ascii :=
  match src with
  | [] => []
  | [s0] =>
      let val := N.shiftl (uint s0) 16 in
      [ encode (N.land (N.shiftr val 18) 63);
        encode (N.land (N.shiftr val 12) 63);
        StdPadding; StdPadding ]
  | [s0; s1] =>
      let val := N.lor (N.shiftl (uint s0) 16) (N.shiftl (uint s1) 8) in
      [ encode (N.land (N.shiftr val 18) 63);
        encode (N.land (N.shiftr val 12) 63);
        encode (N.land (N.shiftr val 6) 63);
        StdPadding ]
  | s0 :: s1 :: s2 :: rest =>
      let val := N.lor (N.lor (N.shiftl (uint s0) 16) (N.shiftl (uint s1) 8))
                       (uint s2) in
      encode (N.land (N.shiftr val 18) 63)
      :: encode (N.land (N.shiftr val 12) 63)
      :: encode (N.land (N.shiftr val 6) 63)
      :: encode (N.land val 63)
      :: Encode rest
  end.

(** [StdEncoding.EncodeToString([]byte(s))] *)
Definition EncodeToString (src : string) : string :=
  string_of_list_ascii (Encode (list_ascii_of_string src)).

End base64.

(** ** The collector library, as an interface

    Types owned by the dependencies.  Go returns [(T, error)] pairs and
    assigns both components, so handle types come with their zero value. *)

Record Library := {
  Settings : Type;                 (* a receiver's block, [interface{}] *)
  batchprocessor_Config : Type;
  queuedprocessor_Config : Type;
  ExtErr : Type;                   (* errors made by a dependency *)
  Viper : Type;
  configmodels_Config : Type;
  Factory : Type;
  FactoryMap : Type;
  zap_Logger : Type;
  builder_Exporters : Type;
  builder_BuiltPipelines : Type;
  builder_Receivers : Type;
  nil_Logger : zap_Logger;
  nil_Exporters : builder_Exporters;
  nil_BuiltPipelines : builder_BuiltPipelines;
  nil_Receivers : builder_Receivers;
  World : Type;                    (* filesystem, sockets, library state *)
}.

Inductive Kind := KExtension | KReceiver | KExporter | KProcessor.

Section Model.

Context {L : Library}.

(** *** Configuration ([config.go], lines 21-45) *)

Record BasicAuthConfig := {
  Username : string;
  Password : string;
  PasswordFile : string;
}.

Record RWConfig := {
  URL : string;
  BasicAuth : option BasicAuthConfig;
  Batch : option (batchprocessor_Config L);
  Queue : option (queuedprocessor_Config L);
}.

Record Config := {
  Enabled : bool;
  RemoteWrite : RWConfig;
  Receivers : gmap string (Settings L);
}.

(** *** [map[string]interface{}] values put into [otelMapStructure] *)

Inductive value :=
| VString (s : string)
| VStrings (l : list string)                     (* []string *)
| VHeaders (h : option (gmap string string))     (* map[string]string, None is nil *)
| VBatch (c : batchprocessor_Config L)           (* *batchprocessor.Config, not nil *)
| VQueue (c : queuedprocessor_Config L)          (* *queuedprocessor.Config, not nil *)
| VReceivers (m : gmap string (Settings L))      (* c.Receivers itself *)
| VMap (m : gmap string value).

(** *** Errors: [errors.New], [fmt.Errorf] with [%w], or a dependency's *)

Inductive error :=
| errors_New (text : string)
| fmt_Errorf (format : string) (args : list string) (err : error)
| External (e : ExtErr L).

Record Factories := {
  Extensions : FactoryMap L;
  ReceiversF : FactoryMap L;
  Processors : FactoryMap L;
  Exporters : FactoryMap L;
}.

Record Tempo := {
  logger : zap_Logger L;
  exporter : builder_Exporters L;
  pipelines : builder_BuiltPipelines L;
  receivers : builder_Receivers L;
}.

(** *** Calls into the dependencies, as they appear in the trace *)

Inductive event :=
| EvReadFile (filename : string)
| EvMergeConfigMap (cfg : gmap string value)
| EvMakeFactoryMap (k : Kind)
| EvLoad
| EvNewProduction
| EvBuildExporters
| EvStartExporters
| EvBuildPipelines
| EvStartProcessors
| EvBuildReceivers
| EvStartReceivers
| EvShutdownReceivers
| EvShutdownProcessors
| EvLogError (msg : string) (err : error).

(** *** Operations of the dependencies *)

Record Collector := {
  ioutil_ReadFile : string -> World L -> (string * option (ExtErr L)) * World L;
  viper_New : Viper L;
  viper_MergeConfigMap :
    Viper L -> gmap string value -> World L -> (Viper L * option (ExtErr L)) * World L;
  config_Load :
    Viper L -> Factories -> World L -> (configmodels_Config L * option (ExtErr L)) * World L;
  jaegerreceiver_NewFactory : Factory L;
  zipkinreceiver_Factory : Factory L;
  otlpreceiver_NewFactory : Factory L;
  otlpexporter_Factory : Factory L;
  queuedprocessor_NewFactory : Factory L;
  batchprocessor_NewFactory : Factory L;
  component_MakeFactoryMap :
    Kind -> list (Factory L) -> World L -> (FactoryMap L * option (ExtErr L)) * World L;
  zap_NewProduction : World L -> (zap_Logger L * option (ExtErr L)) * World L;
  ExportersBuilder_Build :
    zap_Logger L -> configmodels_Config L -> FactoryMap L ->
    World L -> (builder_Exporters L * option (ExtErr L)) * World L;
  Exporters_StartAll : builder_Exporters L -> World L -> option (ExtErr L) * World L;
  PipelinesBuilder_Build :
    zap_Logger L -> configmodels_Config L -> builder_Exporters L -> FactoryMap L ->
    World L -> (builder_BuiltPipelines L * option (ExtErr L)) * World L;
  BuiltPipelines_StartProcessors :
    builder_BuiltPipelines L -> World L -> option (ExtErr L) * World L;
  BuiltPipelines_ShutdownProcessors :
    builder_BuiltPipelines L -> World L -> option (ExtErr L) * World L;
  ReceiversBuilder_Build :
    zap_Logger L -> configmodels_Config L -> builder_BuiltPipelines L -> FactoryMap L ->
    World L -> (builder_Receivers L * option (ExtErr L)) * World L;
  Receivers_StartAll : builder_Receivers L -> World L -> option (ExtErr L) * World L;
  Receivers_ShutdownAll : builder_Receivers L -> World L -> option (ExtErr L) * World L;
  (** [for name := range m]: the keys in an order the runtime picks *)
  rangeKeys : World L -> gmap string (Settings L) -> list string;
  rangeKeys_perm : forall w m, rangeKeys w m ≡ₚ (map_to_list m).*1;
}.

Variable C : Collector.

(** *** State and error monad over the world and the trace *)

Record state := { world : World L; trace : list event }.

Definition M (A : Type) : Type := state -> (error + A) * state.

Definition ret {A} (a : A) : M A := fun s => (inr a, s).

Definition fail {A} (e : error) : M A := fun s => (inl e, s).

Definition bind {A B} (m : M A) (k : A -> M B) : M B :=
  fun s =>
    match m s with
    | (inl e, s') => (inl e, s')
    | (inr a, s') => k a s'
    end.

Definition call {A} (ev : event) (op : World L -> A * World L) : M A :=
  fun s =>
    let '(a, w) := op (world s) in
    (inr a, {| world := w; trace := (trace s ++ [ev])%list |}).

(** a read of the world that is not a call *)
Definition peek {A} (f : World L -> A) : M A := fun s => (inr (f (world s)), s).

Notation "x <- m ;; k" := (bind m (fun x => k))
  (at level 20, m at level 99, k at level 200, only parsing).
Notation "' pat <- m ;; k" := (bind m (fun x => let 'pat := x in k))
  (at level 20, pat pattern, m at level 99, k at level 200, only parsing).

(** [if err != nil { return ..., wrap(err) }] after a call to a dependency *)
Definition return_if (err : option (ExtErr L)) (wrap : error -> error) : M unit :=
  match err with
  | Some e => fail (wrap (External e))
  | None => ret tt
  end.

(** the same after a call to a function of this package *)
Definition wrapping {A} (wrap : error -> error) (m : M A) : M A :=
  fun s =>
    match m s with
    | (inl e, s') => (inl (wrap e), s')
    | (inr a, s') => (inr a, s')
    end.

(** [logger.Error(msg, zap.Error(err))] *)
Definition logger_Error (l : zap_Logger L) (msg : string) (err : error) : M unit :=
  fun s => (inr tt, {| world := world s; trace := (trace s ++ [EvLogError msg err])%list |}).

(** *** [tracingFactories] ([config.go], lines 150-186) *)

Definition tracingFactories : M Factories :=
  '(extensions, err) <-
    call (EvMakeFactoryMap KExtension) (component_MakeFactoryMap C KExtension []) ;;
  _ <- return_if err id ;;
  '(receivers, err) <-
    call (EvMakeFactoryMap KReceiver)
         (component_MakeFactoryMap C KReceiver
            [ jaegerreceiver_NewFactory C;
              zipkinreceiver_Factory C;
              otlpreceiver_NewFactory C ]) ;;
  _ <- return_if err id ;;
  '(exporters, err) <-
    call (EvMakeFactoryMap KExporter)
         (component_MakeFactoryMap C KExporter [ otlpexporter_Factory C ]) ;;
  _ <- return_if err id ;;
  '(processors, err) <-
    call (EvMakeFactoryMap KProcessor)
         (component_MakeFactoryMap C KProcessor
            [ queuedprocessor_NewFactory C; batchprocessor_NewFactory C ]) ;;
  _ <- return_if err id ;;
  ret {| Extensions := extensions;
         ReceiversF := receivers;
         Processors := processors;
         Exporters := exporters |}.

(** *** [Config.otelConfig] ([config.go], lines 57-146) *)

(** lines 73-89: the exporter's headers *)
Definition exporterHeaders (rw : RWConfig) : M (option (gmap string string)) :=
  match BasicAuth rw with
  | Some ba =>
      password <-
        (if (0 <? String.length (PasswordFile ba))%nat then
           '(buff, err) <-
             call (EvReadFile (PasswordFile ba)) (ioutil_ReadFile C (PasswordFile ba)) ;;
           _ <- return_if err
                  (fmt_Errorf "unable to load password file %s %w" [PasswordFile ba]) ;;
           ret buff
         else ret (Password ba)) ;;
      let encodedAuth :=
        base64.EncodeToString (Username ba +:+ ":" +:+ password) in
      ret (Some {[ "Authorization" := "Basic " +:+ encodedAuth ]})
  | None => ret None
  end.

(** lines 114-117: [append] once per key the [range] yields *)
Definition appendNames (keys : list string) : list string :=
  foldl (fun receiverNames name => (receiverNames ++ [name])%list) [] keys.

Definition otelConfig (c : Config) : M (configmodels_Config L) :=
  let otelMapStructure : gmap string value := ∅ in
  if negb (Enabled c) then fail (errors_New "tempo config not enabled") else
  if (size (Receivers c) =? 0)%nat then
    fail (errors_New "must have at least one configured receiver") else
  if (String.length (URL (RemoteWrite c)) =? 0)%nat then
    fail (errors_New "must have a configured remote_write.url") else
  (* exporter *)
  headers <- exporterHeaders (RemoteWrite c) ;;
  let otelMapStructure :=
    <[ "exporters" :=
         VMap {[ "otlp" :=
                   VMap (<[ "endpoint" := VString (URL (RemoteWrite c)) ]>
                        (<[ "headers" := VHeaders headers ]> ∅)) ]} ]>
      otelMapStructure in
  (* processors *)
  let processors : gmap string value := ∅ in
  let processorNames : list string := [] in
  let '(processors, processorNames) :=
    match Batch (RemoteWrite c) with
    | Some b => (<[ "batch" := VBatch b ]> processors, (processorNames ++ ["batch"])%list)
    | None => (processors, processorNames)
    end in
  let '(processors, processorNames) :=
    match Queue (RemoteWrite c) with
    | Some q => (<[ "queue" := VQueue q ]> processors, (processorNames ++ ["queue"])%list)
    | None => (processors, processorNames)
    end in
  let otelMapStructure := <[ "processors" := VMap processors ]> otelMapStructure in
  (* receivers *)
  let otelMapStructure :=
    <[ "receivers" := VReceivers (Receivers c) ]> otelMapStructure in
  receiverNames <- peek (fun w => appendNames (rangeKeys C w (Receivers c))) ;;
  (* pipelines *)
  let otelMapStructure :=
    <[ "pipelines" :=
         VMap {[ "traces" :=
                   VMap (<[ "exporters" := VStrings ["otlp"] ]>
                        (<[ "processors" := VStrings processorNames ]>
                        (<[ "receivers" := VStrings receiverNames ]> ∅))) ]} ]>
      otelMapStructure in
  (* now build the otel configmodel from the mapstructure *)
  let v := viper_New C in
  '(v, err) <-
    call (EvMergeConfigMap otelMapStructure)
         (viper_MergeConfigMap C v otelMapStructure) ;;
  _ <- return_if err (fmt_Errorf "failed to merge in mapstructure config %w" []) ;;
  factories <- wrapping (fmt_Errorf "failed to create factories %w" []) tracingFactories ;;
  '(otelCfg, err) <- call EvLoad (config_Load C v factories) ;;
  _ <- return_if err (fmt_Errorf "failed to load OTel config %w" []) ;;
  ret otelCfg.

(** *** [Tempo] ([tempo.go]) *)

(** lines 73-119.  The method fills in the fields of [t] as it goes; on
    an error its only caller, [New], drops [t], so the error case
    carries no [Tempo]. *)
Definition buildAndStartPipeline (t : Tempo) (cfg : Config) : M Tempo :=
  (* create component factories *)
  otelConfig <-
    wrapping (fmt_Errorf "failed to load otelConfig from agent tempo config %w" [])
             (otelConfig cfg) ;;
  factories <-
    wrapping (fmt_Errorf "failed to load tracing factories %w" []) tracingFactories ;;
  (* start exporter *)
  '(exporter', err) <-
    call EvBuildExporters
         (ExportersBuilder_Build C (logger t) otelConfig (Exporters factories)) ;;
  let t := {| logger := logger t; exporter := exporter';
              pipelines := pipelines t; receivers := receivers t |} in
  _ <- return_if err (fmt_Errorf "failed to build exporters %w" []) ;;
  err <- call EvStartExporters (Exporters_StartAll C (exporter t)) ;;
  _ <- return_if err (fmt_Errorf "failed to start exporters %w" []) ;;
  (* start pipelines *)
  '(pipelines', err) <-
    call EvBuildPipelines
         (PipelinesBuilder_Build C (logger t) otelConfig (exporter t)
                                 (Processors factories)) ;;
  let t := {| logger := logger t; exporter := exporter t;
              pipelines := pipelines'; receivers := receivers t |} in
  _ <- return_if err (fmt_Errorf "failed to build exporters %w" []) ;;
  err <- call EvStartProcessors (BuiltPipelines_StartProcessors C (pipelines t)) ;;
  _ <- return_if err (fmt_Errorf "failed to start processors %w" []) ;;
  (* start receivers *)
  '(receivers', err) <-
    call EvBuildReceivers
         (ReceiversBuilder_Build C (logger t) otelConfig (pipelines t)
                                 (ReceiversF factories)) ;;
  let t := {| logger := logger t; exporter := exporter t;
              pipelines := pipelines t; receivers := receivers' |} in
  _ <- return_if err (fmt_Errorf "failed to start receivers %w" []) ;;
  err <- call EvStartReceivers (Receivers_StartAll C (receivers t)) ;;
  _ <- return_if err (fmt_Errorf "failed to start receivers %w" []) ;;
  ret t.

(** lines 38-54; the go-kit logger argument is not used by the code *)
Definition New (cfg : Config) : M Tempo :=
  let tempo := {| logger := nil_Logger L; exporter := nil_Exporters L;
                  pipelines := nil_BuiltPipelines L; receivers := nil_Receivers L |} in
  '(logger', err) <- call EvNewProduction (zap_NewProduction C) ;;
  let tempo := {| logger := logger'; exporter := exporter tempo;
                  pipelines := pipelines tempo; receivers := receivers tempo |} in
  _ <- return_if err (fmt_Errorf "failed to create zap prod logger %w" []) ;;
  tempo <-
    wrapping (fmt_Errorf "failed to create exporter %w" [])
             (buildAndStartPipeline tempo cfg) ;;
  ret tempo.

(** lines 57-71 *)
Definition Stop (t : Tempo) : M unit :=
  err <- call EvShutdownReceivers (Receivers_ShutdownAll C (receivers t)) ;;
  _ <- match err with
       | Some e => logger_Error (logger t) "failed to shutdown receiver" (External e)
       | None => ret tt
       end ;;
  err <- call EvShutdownProcessors (BuiltPipelines_ShutdownProcessors C (pipelines t)) ;;
  _ <- match err with
       | Some e => logger_Error (logger t) "failed to shutdown processors" (External e)
       | None => ret tt
       end ;;
  err <- call EvShutdownReceivers (Receivers_ShutdownAll C (receivers t)) ;;
  _ <- match err with
       | Some e => logger_Error (logger t) "failed to shutdown receivers" (External e)
       | None => ret tt
       end ;;
  ret tt.

(** *** Observations *)

(** a run from a fresh trace *)
Definition run {A} (m : M A) (w : World L) : (error + A) * state :=
  m {| world := w; trace := [] |}.

(** The Translated Graph of a run: what [MergeConfigMap] was given. *)
Fixpoint translatedGraph (tr : list event) : option (gmap string value) :=
  match tr with
  | [] => None
  | EvMergeConfigMap g :: _ => Some g
  | _ :: tr => translatedGraph tr
  end.

Definition section (g : gmap string value) (k : string) : option (gmap string value) :=
  match g !! k with
  | Some (VMap m) => Some m
  | _ => None
  end.

Definition names (m : gmap string value) (k : string) : option (list string) :=
  match m !! k with
  | Some (VStrings l) => Some l
  | _ => None
  end.

(** [pipelines.traces.<k>] *)
Definition tracesList (g : gmap string value) (k : string) : option (list string) :=
  p ← section g "pipelines"; t ← section p "traces"; names t k.

(** the value of header [h] of exporter [name], when it has one *)
Definition exporterHeader (g : gmap string value) (name h : string) : option string :=
  e ← section g "exporters";
  entry ← section e name;
  match entry !! "headers" with
  | Some (VHeaders (Some hs)) => hs !! h
  | _ => None
  end.

Definition isFactoryEvent (ev : event) : bool :=
  match ev with
  | EvMakeFactoryMap _ | EvLoad => true
  | _ => false
  end.

Definition isShutdown (ev : event) : bool :=
  match ev with
  | EvShutdownReceivers | EvShutdownProcessors => true
  | _ => false
  end.

Definition isLifecycle (ev : event) : bool :=
  match ev with
  | EvBuildExporters | EvStartExporters
  | EvBuildPipelines | EvStartProcessors
  | EvBuildReceivers | EvStartReceivers => true
  | _ => false
  end.

(** the build and start calls of a complete startup, in order *)
Definition lifecycle : list event :=
  [ EvBuildExporters; EvStartExporters;
    EvBuildPipelines; EvStartProcessors;
    EvBuildReceivers; EvStartReceivers ].

(** neither a build or start call nor a shutdown call *)
Definition quietEvent (ev : event) : Prop :=
  isLifecycle ev = false /\ isShutdown ev = false.

(** The message [buildAndStartPipeline] wraps a failure in, by the
    number of build and start calls made when it returns
    ([tempo.go], lines 77-115). *)
Definition failureMessages (calls : nat) : list string :=
  match calls with
  | 0 => [ "failed to load otelConfig from agent tempo config %w";
           "failed to load tracing factories %w" ]
  | 1 => [ "failed to build exporters %w" ]
  | 2 => [ "failed to start exporters %w" ]
  | 3 => [ "failed to build exporters %w" ]
  | 4 => [ "failed to start processors %w" ]
  | _ => [ "failed to start receivers %w" ]
  end.

(** what [Stop] logs after a shutdown call that returned [err] *)
Definition logged (msg : string) (err : option (ExtErr L)) : list event :=
  match err with
  | Some e => [EvLogError msg (External e)]
  | None => []
  end.

(** *** The specification's error classes, read off the errors made

    [ConfigInvalid] is one of the three [errors.New] of lines 60-70,
    [CredentialLoadError] the [fmt.Errorf] of line 80. *)

Definition isConfigInvalid (e : error) : bool :=
  match e with
  | errors_New text =>
      String.eqb text "tempo config not enabled"
      || String.eqb text "must have at least one configured receiver"
      || String.eqb text "must have a configured remote_write.url"
  | _ => false
  end.

Definition isCredentialLoadError (e : error) : bool :=
  match e with
  | fmt_Errorf format _ (External _) =>
      String.eqb format "unable to load password file %s %w"
  | _ => false
  end.

(** the outermost message of an error *)
Definition message (e : error) : option string :=
  match e with
  | errors_New text => Some text
  | fmt_Errorf format _ _ => Some format
  | External _ => None
  end.

(** the three checks of lines 60-70 all pass *)
Definition passesChecks (c : Config) : Prop :=
  Enabled c = true /\ Receivers c <> ∅ /\ URL (RemoteWrite c) <> "".

(** *** The rest of the package *)

(** [Config.UnmarshalYAML] ([config.go], lines 48-55).  [unmarshal] is
    the decoder the yaml package hands in: it fills the struct it is
    given and returns its error, which is passed on as it is. *)
Definition UnmarshalYAML (c : Config)
    (unmarshal : Config -> Config * option (ExtErr L)) : Config * option error :=
  let c := {| Enabled := true; RemoteWrite := RemoteWrite c; Receivers := Receivers c |} in
  let '(c, err) := unmarshal c in
  (c, External <$> err).

(** [Tempo.ReportFatalError] ([tempo.go], lines 122-124) *)
Definition ReportFatalError (t : Tempo) (err : error) : M unit :=
  logger_Error (logger t) "fatal error reported" err.

(** [Tempo.GetFactory] ([tempo.go], lines 127-129) *)
Definition GetFactory (t : Tempo) (kind : Kind) (componentType : string)
    : option (Factory L) :=
  None.

(** *** More observations *)

(** the registrations of one [tracingFactories], in order *)
Definition factoryCalls : list event :=
  [ EvMakeFactoryMap KExtension; EvMakeFactoryMap KReceiver;
    EvMakeFactoryMap KExporter; EvMakeFactoryMap KProcessor ].

(** the calls of a complete translation of graph [g], after the headers *)
Definition translationCalls (g : gmap string value) : list event :=
  (EvMergeConfigMap g :: factoryCalls ++ [EvLoad])%list.

(** A computation only appends to the trace, and what it does is the
    same whatever the trace it starts from holds. *)
Definition framed {A} (m : M A) : Prop :=
  forall w tr,
    m {| world := w; trace := tr |} =
      ( (m {| world := w; trace := [] |}).1,
        {| world := world (m {| world := w; trace := [] |}).2;
           trace := (tr ++ trace (m {| world := w; trace := [] |}).2)%list |} ).

End Model.

Arguments RWConfig L : clear implicits.
Arguments Config L : clear implicits.
Arguments value L : clear implicits.
Arguments error L : clear implicits.
Arguments event L : clear implicits.
Arguments Factories L : clear implicits.
Arguments Tempo L : clear implicits.
Arguments Collector L : clear implicits.
Arguments state L : clear implicits.
Arguments M L A : clear implicits.

(** ** A small collector to run the model on

    Files are a list of paths with their content; [failing] names the
    operations that return an error. *)

Module Sample.

Record world := { files : list (string * string); failing : list string }.

Definition L : Library :=
  {| Settings := string;
     batchprocessor_Config := nat;
     queuedprocessor_Config := nat;
     ExtErr := string;
     Viper := unit;
     configmodels_Config := unit;
     Factory := string;
     FactoryMap := list string;
     zap_Logger := bool;
     builder_Exporters := bool;
     builder_BuiltPipelines := bool;
     builder_Receivers := bool;
     nil_Logger := false;
     nil_Exporters := false;
     nil_BuiltPipelines := false;
     nil_Receivers := false;
     World := world |}.

Definition fails (op : string) (w : world) : bool := existsb (String.eqb op) (failing w).

Definition outcome (op : string) (w : world) : option string :=
  if fails op w then Some (op +:+ " failed") else None.

Fixpoint readFile (fs : list (string * string)) (path : string) : string * option string :=
  match fs with
  | [] => ("", Some ("open " +:+ path +:+ ": no such file or directory"))
  | (p, content) :: fs => if String.eqb p path then (content, None) else readFile fs path
  end.

Definition C : Collector L :=
  {| ioutil_ReadFile := fun path (w : World L) => (readFile (files w) path, w);
     viper_New := tt : Viper L;
     viper_MergeConfigMap := fun v _ (w : World L) => ((v, outcome "MergeConfigMap" w), w);
     config_Load := fun _ _ (w : World L) => ((tt : configmodels_Config L, outcome "Load" w), w);
     jaegerreceiver_NewFactory := "jaeger" : Factory L;
     zipkinreceiver_Factory := "zipkin" : Factory L;
     otlpreceiver_NewFactory := "otlp" : Factory L;
     otlpexporter_Factory := "otlp" : Factory L;
     queuedprocessor_NewFactory := "queued_retry" : Factory L;
     batchprocessor_NewFactory := "batch" : Factory L;
     component_MakeFactoryMap :=
       fun _ fs (w : World L) => ((fs : FactoryMap L, outcome "MakeFactoryMap" w), w);
     zap_NewProduction :=
       fun (w : World L) => ((true : zap_Logger L, outcome "NewProduction" w), w);
     ExportersBuilder_Build :=
       fun _ _ _ (w : World L) =>
         ((negb (fails "ExportersBuilder.Build" w) : builder_Exporters L,
           outcome "ExportersBuilder.Build" w), w);
     Exporters_StartAll := fun _ (w : World L) => (outcome "Exporters.StartAll" w, w);
     PipelinesBuilder_Build :=
       fun _ _ _ _ (w : World L) =>
         ((negb (fails "PipelinesBuilder.Build" w) : builder_BuiltPipelines L,
           outcome "PipelinesBuilder.Build" w), w);
     BuiltPipelines_StartProcessors :=
       fun _ (w : World L) => (outcome "BuiltPipelines.StartProcessors" w, w);
     BuiltPipelines_ShutdownProcessors :=
       fun _ (w : World L) => (outcome "BuiltPipelines.ShutdownProcessors" w, w);
     ReceiversBuilder_Build :=
       fun _ _ _ _ (w : World L) =>
         ((negb (fails "ReceiversBuilder.Build" w) : builder_Receivers L,
           outcome "ReceiversBuilder.Build" w), w);
     Receivers_StartAll := fun _ (w : World L) => (outcome "Receivers.StartAll" w, w);
     Receivers_ShutdownAll := fun _ (w : World L) => (outcome "Receivers.ShutdownAll" w, w);
     rangeKeys := fun _ (m : gmap string (Settings L)) => (map_to_list m).*1;
     rangeKeys_perm := fun _ _ => reflexivity _ |}.

Definition quiet : world := {| files := []; failing := [] |}.

Definition withFile (path content : string) : world :=
  {| files := [(path, content)]; failing := [] |}.

Definition breaking (op : string) : world := {| files := []; failing := [op] |}.

Definition config (enabled : bool) (rs : list string) (url : string)
    (ba : option BasicAuthConfig) (b q : option nat) : Config L :=
  {| Enabled := enabled;
     RemoteWrite := @Build_RWConfig L url ba b q;
     Receivers := list_to_map ((fun r => (r, "")) <$> rs) : gmap string (Settings L) |}.

Definition basicAuth (u p f : string) : option BasicAuthConfig :=
  Some {| Username := u; Password := p; PasswordFile := f |}.

Definition tempo : Tempo L :=
  @Build_Tempo L true true true true.

Definition newline : string := String "010"%char "".

(** two receivers, both processors, inline credentials *)
Definition full : Config L :=
  config true ["jaeger"; "zipkin"] "tempo:55680" (basicAuth "u" "p" "") (Some 1) (Some 2).

(** credentials in a file, an inline password next to it *)
Definition fromFile : Config L :=
  config true ["jaeger"] "tempo:55680" (basicAuth "u" "inline" "/etc/pw") None None.

Definition blank : Config L :=
  config true ["otlp"] "tempo:55680" (basicAuth "" "" "") None (Some 2).

(** not enabled, and its password file is not there *)
Definition disabled : Config L :=
  config false ["jaeger"] "tempo:55680" (basicAuth "u" "p" "/missing") None None.

Definition plain : Config L :=
  config true ["jaeger"] "tempo:55680" None None None.

End Sample.

(** ** What a Translated Graph has to look like

    [g] is the graph for configuration [c], given the exporter's headers
    and the receiver names in the order the [range] loop met them. *)

Definition processorNamesFor {L} (rw : RWConfig L) : list string :=
  match Batch rw, Queue rw with
  | Some _, Some _ => ["batch"; "queue"]
  | Some _, None => ["batch"]
  | None, Some _ => ["queue"]
  | None, None => []
  end.

Record translates {L} (c : Config L) (headers : option (gmap string string))
    (receiverNames : list string) (g : gmap string (value L)) : Prop := {
  tr_exporters :
    section g "exporters" =
      Some {[ "otlp" := VMap (<[ "endpoint" := VString (URL (RemoteWrite c)) ]>
                             (<[ "headers" := VHeaders headers ]> ∅)) ]};
  tr_processors :
    exists ps, section g "processors" = Some ps /\
      ps !! "batch" = VBatch <$> Batch (RemoteWrite c) /\
      ps !! "queue" = VQueue <$> Queue (RemoteWrite c) /\
      forall k, k <> "batch" -> k <> "queue" -> ps !! k = None;
  tr_receivers : g !! "receivers" = Some (VReceivers (Receivers c));
  tr_pipeline_exporters : tracesList g "exporters" = Some ["otlp"];
  tr_pipeline_processors :
    tracesList g "processors" = Some (processorNamesFor (RemoteWrite c));
  tr_pipeline_receivers : tracesList g "receivers" = Some receiverNames;
}.

(** * Properties *)

(** Go's [len(s) == 0] on strings and maps. *)
Lemma length_eqb_0 (s : string) : (String.length s =? 0)%nat = true <-> s = "".
Proof. destruct s; cbn; split; intros; (done || discriminate). Qed.

Lemma size_eqb_0 {A} (m : gmap string A) : (size m =? 0)%nat = true <-> m = ∅.
Proof. rewrite Nat.eqb_eq. apply map_size_empty_iff. Qed.

Lemma length_ltb_0 (s : string) : (0 <? String.length s)%nat = false <-> s = "".
Proof. destruct s; cbn; split; intros; (done || discriminate). Qed.

Section Facts.

Context {L : Library} (C : Collector L).

Implicit Types (c : Config L) (w : World L) (s : state L) (t : Tempo L).

(** the [range] loop copies what the runtime yields *)
Lemma appendNames_id (keys : list string) : appendNames keys = keys.
Proof.
  unfold appendNames.
  enough (H : forall acc, foldl (fun a n => (a ++ [n])%list) acc keys = (acc ++ keys)%list)
    by apply (H []).
  induction keys as [|k keys IH]; intros acc; simpl.
  - by rewrite app_nil_r.
  - rewrite IH, <- app_assoc. done.
Qed.

(** destruct the next call into a dependency *)
Ltac next_call :=
  match goal with
  | |- context [ioutil_ReadFile C ?p ?w] =>
      destruct (ioutil_ReadFile C p w) as [[? [?|]] ?] eqn:?
  | |- context [viper_MergeConfigMap C ?v ?g ?w] =>
      destruct (viper_MergeConfigMap C v g w) as [[? [?|]] ?] eqn:?
  | |- context [component_MakeFactoryMap C ?k ?fs ?w] =>
      destruct (component_MakeFactoryMap C k fs w) as [[? [?|]] ?] eqn:?
  | |- context [config_Load C ?v ?f ?w] =>
      destruct (config_Load C v f w) as [[? [?|]] ?] eqn:?
  end.

Ltac monad_simpl :=
  cbv beta iota delta [bind call ret fail return_if wrapping peek id];
  cbn [world trace fst snd].

Lemma tracingFactories_trace s :
  exists r s' rest,
    tracingFactories C s = (r, s') /\
    trace s' = (trace s ++ rest)%list /\
    Forall (fun ev => exists k, ev = EvMakeFactoryMap k) rest /\
    (forall e, r = inl e -> exists x, e = External x).
Proof.
  unfold tracingFactories.
  repeat (monad_simpl; next_call); monad_simpl.
  all: do 3 eexists; split; [reflexivity|]; monad_simpl.
  all: rewrite <- ?app_assoc; split; [reflexivity|]; split.
  all: try (intros ? [=]; eauto).
  all: repeat constructor; eauto.
Qed.

(** *** The exporter's headers *)

Lemma exporterHeaders_none rw s :
  BasicAuth rw = None -> exporterHeaders C rw s = (inr None, s).
Proof. unfold exporterHeaders. by intros ->. Qed.

Lemma exporterHeaders_inline rw ba s :
  BasicAuth rw = Some ba -> PasswordFile ba = "" ->
  exporterHeaders C rw s =
    (inr (Some {[ "Authorization" :=
                    "Basic " +:+ base64.EncodeToString
                                   (Username ba +:+ ":" +:+ Password ba) ]}), s).
Proof. unfold exporterHeaders. by intros -> ->. Qed.

Lemma exporterHeaders_file rw ba s buff err w' :
  BasicAuth rw = Some ba -> PasswordFile ba <> "" ->
  ioutil_ReadFile C (PasswordFile ba) (world s) = ((buff, err), w') ->
  exporterHeaders C rw s =
    ( match err with
      | Some x =>
          inl (fmt_Errorf "unable to load password file %s %w" [PasswordFile ba]
                          (External x))
      | None =>
          inr (Some {[ "Authorization" :=
                         "Basic " +:+ base64.EncodeToString
                                        (Username ba +:+ ":" +:+ buff) ]})
      end,
      {| world := w'; trace := trace s ++ [EvReadFile (PasswordFile ba)] |} ).
Proof.
  unfold exporterHeaders. intros -> Hf Hr.
  destruct (0 <? String.length (PasswordFile ba))%nat eqn:Hl;
    [| by apply length_ltb_0 in Hl].
  monad_simpl. rewrite Hr. by destruct err.
Qed.

(** Whatever happens, the headers step makes at most one call, a file
    read; it fails only with the password-file error; and it yields an
    [Authorization] header exactly when [basic_auth] is there. *)
Lemma exporterHeaders_shape rw s r s1 :
  exporterHeaders C rw s = (r, s1) ->
  (s1 = s \/ exists p, trace s1 = (trace s ++ [EvReadFile p])%list) /\
  match r with
  | inl e => isCredentialLoadError e = true /\ isConfigInvalid e = false
  | inr headers =>
      is_Some (headers ≫= fun hs => hs !! "Authorization") <-> is_Some (BasicAuth rw)
  end.
Proof.
  destruct (BasicAuth rw) as [ba|] eqn:Hba.
  - destruct (decide (PasswordFile ba = "")) as [Hf|Hf].
    + rewrite (exporterHeaders_inline _ _ _ Hba Hf). intros [= <- <-].
      split; [by left|]. simpl. rewrite lookup_singleton_eq. split; eauto.
    + destruct (ioutil_ReadFile C (PasswordFile ba) (world s)) as [[buff err] w'] eqn:Hr.
      rewrite (exporterHeaders_file _ _ _ _ _ _ Hba Hf Hr). intros [= <- <-].
      split; [right; eauto|]. destruct err; [done|].
      simpl. rewrite lookup_singleton_eq. split; eauto.
  - rewrite (exporterHeaders_none _ _ Hba). intros [= <- <-].
    split; [by left|]. simpl. split; intros [? [=]].
Qed.


(** *** [otelConfig] *)

Lemma passesChecks_dec c :
  passesChecks c \/
  Enabled c = false \/ Receivers c = ∅ \/ URL (RemoteWrite c) = "".
Proof.
  unfold passesChecks.
  destruct (Enabled c); [|by auto].
  destruct (decide (Receivers c = ∅)); [by auto|].
  destruct (decide (URL (RemoteWrite c) = "")); by auto.
Qed.

Lemma otelConfig_rejected c w :
  Enabled c = false \/ Receivers c = ∅ \/ URL (RemoteWrite c) = "" ->
  exists e, run (otelConfig C c) w = (inl e, {| world := w; trace := [] |}) /\
            isConfigInvalid e = true.
Proof.
  intros H. unfold run, otelConfig.
  destruct (Enabled c); [|by eexists].
  destruct (size (Receivers c) =? 0)%nat eqn:Hs; [by eexists|].
  destruct (String.length (URL (RemoteWrite c)) =? 0)%nat eqn:Hu; [by eexists|].
  destruct H as [H|[H|H]]; [done| |].
  - apply size_eqb_0 in H. congruence.
  - apply length_eqb_0 in H. congruence.
Qed.

Ltac graph_lookups :=
  unfold tracesList, section, names;
  repeat first [ rewrite lookup_insert_eq | rewrite lookup_insert_ne by done
               | rewrite lookup_singleton_eq | rewrite lookup_empty ];
  cbn [mbind option_bind].

Lemma otelConfig_checked c w r1 s1 :
  passesChecks c ->
  exporterHeaders C (RemoteWrite c) {| world := w; trace := [] |} = (r1, s1) ->
  match r1 with
  | inl e => run (otelConfig C c) w = (inl e, s1)
  | inr headers =>
      exists g r s2 rest,
        run (otelConfig C c) w = (r, s2) /\
        trace s2 = (trace s1 ++ EvMergeConfigMap g :: rest)%list /\
        Forall (fun ev => isFactoryEvent ev = true) rest /\
        translates c headers (rangeKeys C (world s1) (Receivers c)) g /\
        (forall e, r = inl e ->
                   isConfigInvalid e = false /\ isCredentialLoadError e = false)
  end.
Proof.
  intros (He & Hr & Hu) Hh.
  destruct r1 as [e|headers]; unfold run, otelConfig; rewrite He; cbn [negb].
  all: destruct (size (Receivers c) =? 0)%nat eqn:Hs; [by apply size_eqb_0 in Hs|].
  all: destruct (String.length (URL (RemoteWrite c)) =? 0)%nat eqn:Hl;
    [by apply length_eqb_0 in Hl|].
  all: unfold bind at 1; rewrite Hh.
  1: done.
  destruct (Batch (RemoteWrite c)) as [b|] eqn:Hb, (Queue (RemoteWrite c)) as [q|] eqn:Hq.
  all: cbv beta iota; unfold bind at 1, peek at 1; cbv beta iota.
  all: rewrite appendNames_id.
  all: match goal with
       | |- context [EvMergeConfigMap ?g0] => set (g := g0)
       end.
  all: assert (Hg : translates c headers (rangeKeys C (world s1) (Receivers c)) g);
    [ subst g; split; unfold processorNamesFor; rewrite ?Hb, ?Hq;
      [| eexists; split; [|split; [|split]] | | | |];
      try (graph_lookups; done);
      intros k ? ?; graph_lookups; done
    | clearbody g ].
  all: destruct s1 as [w1 tr1].
  all: unfold tracingFactories.
  all: repeat (monad_simpl; next_call); monad_simpl.
  all: exists g; do 3 eexists; split; [reflexivity|]; cbn [trace].
  all: rewrite <- ?app_assoc; split; [reflexivity|].
  all: split; [repeat constructor|]; split; [exact Hg|].
  all: intros ? [=]; subst; done.
Qed.


Lemma translates_header c headers rn g h :
  translates c headers rn g ->
  exporterHeader g "otlp" h = headers ≫= fun hs => hs !! h.
Proof.
  intros [He _ _ _ _ _]. unfold exporterHeader. rewrite He. cbn [mbind option_bind].
  unfold section. rewrite lookup_singleton_eq. cbn [mbind option_bind].
  rewrite lookup_insert_ne by done. rewrite lookup_insert_eq.
  by destruct headers.
Qed.

Lemma translatedGraph_app (tr1 tr2 : list (event L)) :
  translatedGraph tr1 = None ->
  translatedGraph (tr1 ++ tr2) = translatedGraph tr2.
Proof.
  induction tr1 as [|ev tr1 IH]; [done|]. by destruct ev; simpl; try discriminate.
Qed.

Lemma exporterHeaders_no_graph rw w r s1 :
  exporterHeaders C rw {| world := w; trace := [] |} = (r, s1) ->
  translatedGraph (trace s1) = None.
Proof.
  intros H. apply exporterHeaders_shape in H as [[->|[p ->]] _]; done.
Qed.

Lemma otelConfig_translates c w headers s1 :
  passesChecks c ->
  exporterHeaders C (RemoteWrite c) {| world := w; trace := [] |} = (inr headers, s1) ->
  exists g rest,
    trace (run (otelConfig C c) w).2 = (trace s1 ++ EvMergeConfigMap g :: rest)%list /\
    translatedGraph (trace (run (otelConfig C c) w).2) = Some g /\
    translates c headers (rangeKeys C (world s1) (Receivers c)) g /\
    (forall e, (run (otelConfig C c) w).1 = inl e ->
               isConfigInvalid e = false /\ isCredentialLoadError e = false).
Proof.
  intros Hc Hh.
  pose proof (otelConfig_checked c w _ _ Hc Hh) as (g & r & s2 & rest & Hrun & Htr & _ & Hg & He).
  exists g, rest. rewrite Hrun. cbn [fst snd].
  split; [done|]. split; [|split; [done|exact He]].
  rewrite Htr, translatedGraph_app; [done|]. by eapply exporterHeaders_no_graph.
Qed.

(** A run hands a graph to [MergeConfigMap] only when the checks pass
    and the headers step succeeds; the graph is as [translates] says. *)
Lemma otelConfig_graph_inv c w g :
  translatedGraph (trace (run (otelConfig C c) w).2) = Some g ->
  passesChecks c /\
  exists headers s1,
    exporterHeaders C (RemoteWrite c) {| world := w; trace := [] |} = (inr headers, s1) /\
    translates c headers (rangeKeys C (world s1) (Receivers c)) g.
Proof.
  intros Hg. destruct (passesChecks_dec c) as [Hc|Hc].
  - split; [done|].
    destruct (exporterHeaders C (RemoteWrite c) {| world := w; trace := [] |})
      as [[e|headers] s1] eqn:Hh.
    + pose proof (otelConfig_checked c w _ _ Hc Hh) as Hrun. cbv beta iota in Hrun.
      rewrite Hrun in Hg. cbn [snd] in Hg.
      by rewrite (exporterHeaders_no_graph _ _ _ _ Hh) in Hg.
    + destruct (otelConfig_translates c w _ _ Hc Hh) as (g' & rest & _ & Hg' & Ht & _).
      rewrite Hg' in Hg. injection Hg as <-. eauto.
  - destruct (otelConfig_rejected c w Hc) as (e & Hrun & _).
    by rewrite Hrun in Hg.
Qed.

Lemma otelConfig_success c w cfg s' :
  run (otelConfig C c) w = (inr cfg, s') ->
  exists g, translatedGraph (trace s') = Some g.
Proof.
  intros Hrun. destruct (passesChecks_dec c) as [Hc|Hc].
  - destruct (exporterHeaders C (RemoteWrite c) {| world := w; trace := [] |})
      as [[e|headers] s1] eqn:Hh.
    + pose proof (otelConfig_checked c w _ _ Hc Hh) as Hrun'. cbv beta iota in Hrun'.
      congruence.
    + destruct (otelConfig_translates c w _ _ Hc Hh) as (g & rest & _ & Hg & _).
      rewrite Hrun in Hg. eauto.
  - destruct (otelConfig_rejected c w Hc) as (e & Hrun' & _). congruence.
Qed.

(** *** The exporter *)

(** C1: when translation succeeds the graph has one exporter entry,
    "otlp", with the configured url as endpoint; the traces pipeline
    exports to ["otlp"] only; the entry carries an Authorization header
    exactly when basic_auth is configured. *)
Theorem otelConfig_single_otlp_exporter c w cfg s' :
  run (otelConfig C c) w = (inr cfg, s') ->
  exists g entry,
    translatedGraph (trace s') = Some g /\
    section g "exporters" = Some {[ "otlp" := VMap entry ]} /\
    entry !! "endpoint" = Some (VString (URL (RemoteWrite c))) /\
    tracesList g "exporters" = Some ["otlp"] /\
    (is_Some (exporterHeader g "otlp" "Authorization") <->
     is_Some (BasicAuth (RemoteWrite c))).
Proof.
  intros Hrun. destruct (otelConfig_success _ _ _ _ Hrun) as (g & Hg).
  pose proof Hg as Hg'.
  replace s' with (run (otelConfig C c) w).2 in Hg' by (by rewrite Hrun).
  apply otelConfig_graph_inv in Hg' as (_ & headers & s1 & Hh & Ht).
  exists g. eexists. split; [done|]. split; [apply Ht|].
  split; [by rewrite lookup_insert_eq|]. split; [apply Ht|].
  rewrite (translates_header _ _ _ _ _ Ht).
  by apply exporterHeaders_shape in Hh as [_ ?].
Qed.

(** C2: with basic_auth and no password_file the Authorization header is
    "Basic " followed by the base64 of username, colon, password; for
    "u" and "p" that is "Basic dTpw". *)
Theorem otelConfig_basic_auth_header c w ba :
  passesChecks c ->
  BasicAuth (RemoteWrite c) = Some ba ->
  PasswordFile ba = "" ->
  exists g,
    translatedGraph (trace (run (otelConfig C c) w).2) = Some g /\
    exporterHeader g "otlp" "Authorization" =
      Some ("Basic " +:+ base64.EncodeToString (Username ba +:+ ":" +:+ Password ba)) /\
    (Username ba = "u" -> Password ba = "p" ->
     exporterHeader g "otlp" "Authorization" = Some "Basic dTpw").
Proof.
  intros Hc Hba Hf.
  pose proof (exporterHeaders_inline (RemoteWrite c) ba {| world := w; trace := [] |} Hba Hf)
    as Hh.
  destruct (otelConfig_translates c w _ _ Hc Hh) as (g & rest & _ & Hg & Ht & _).
  exists g. split; [done|].
  rewrite (translates_header _ _ _ _ _ Ht). cbn [mbind option_bind].
  rewrite lookup_singleton_eq. split; [done|]. by intros -> ->.
Qed.

(** C9: with a readable password_file its whole content, unchanged, is
    the password of the header, whatever the inline password is. *)
Theorem otelConfig_password_file_verbatim c w ba content w' :
  passesChecks c ->
  BasicAuth (RemoteWrite c) = Some ba ->
  PasswordFile ba <> "" ->
  ioutil_ReadFile C (PasswordFile ba) w = ((content, None), w') ->
  exists g,
    translatedGraph (trace (run (otelConfig C c) w).2) = Some g /\
    exporterHeader g "otlp" "Authorization" =
      Some ("Basic " +:+ base64.EncodeToString (Username ba +:+ ":" +:+ content)).
Proof.
  intros Hc Hba Hf Hr.
  pose proof (exporterHeaders_file (RemoteWrite c) ba {| world := w; trace := [] |}
                content None w' Hba Hf Hr) as Hh.
  destruct (otelConfig_translates c w _ _ Hc Hh) as (g & rest & _ & Hg & Ht & _).
  exists g. split; [done|].
  rewrite (translates_header _ _ _ _ _ Ht). cbn [mbind option_bind].
  by rewrite lookup_singleton_eq.
Qed.

(** C10: basic_auth with empty username and password and no
    password_file is translated like any other: the first call of the
    run is MergeConfigMap, the header is "Basic Og==", and an error, if
    any, is neither a ConfigInvalid nor a CredentialLoadError. *)
Theorem otelConfig_empty_credentials c w ba :
  passesChecks c ->
  BasicAuth (RemoteWrite c) = Some ba ->
  Username ba = "" -> Password ba = "" -> PasswordFile ba = "" ->
  exists g rest,
    trace (run (otelConfig C c) w).2 = EvMergeConfigMap g :: rest /\
    exporterHeader g "otlp" "Authorization" = Some "Basic Og==" /\
    (forall e, (run (otelConfig C c) w).1 = inl e ->
               isConfigInvalid e = false /\ isCredentialLoadError e = false).
Proof.
  intros Hc Hba Hu Hp Hf.
  pose proof (exporterHeaders_inline (RemoteWrite c) ba {| world := w; trace := [] |} Hba Hf)
    as Hh.
  destruct (otelConfig_translates c w _ _ Hc Hh) as (g & rest & Htr & _ & Ht & He).
  exists g, rest. split; [done|]. split; [|done].
  rewrite (translates_header _ _ _ _ _ Ht). cbn [mbind option_bind].
  by rewrite lookup_singleton_eq, Hu, Hp.
Qed.

(** *** Processors and receivers *)

(** C3: the traces pipeline names its processors as ["batch"; "queue"],
    ["batch"], ["queue"] or [] according to which of the two settings
    are present, and the processors section has an entry for a
    processor only when its settings are present. *)
Theorem otelConfig_processor_names c w g :
  translatedGraph (trace (run (otelConfig C c) w).2) = Some g ->
  tracesList g "processors" =
    Some (match Batch (RemoteWrite c), Queue (RemoteWrite c) with
          | Some _, Some _ => ["batch"; "queue"]
          | Some _, None => ["batch"]
          | None, Some _ => ["queue"]
          | None, None => []
          end) /\
  exists ps,
    section g "processors" = Some ps /\
    (is_Some (ps !! "batch") <-> is_Some (Batch (RemoteWrite c))) /\
    (is_Some (ps !! "queue") <-> is_Some (Queue (RemoteWrite c))) /\
    (forall k, k <> "batch" -> k <> "queue" -> ps !! k = None).
Proof.
  intros Hg. apply otelConfig_graph_inv in Hg as (_ & headers & s1 & _ & Ht).
  split; [apply Ht|].
  destruct (tr_processors _ _ _ _ Ht) as (ps & Hps & Hb & Hq & Hk).
  exists ps. split; [done|]. rewrite Hb, Hq, !fmap_is_Some. done.
Qed.

(** C6: when translation succeeds the traces pipeline names each key
    of the receivers mapping once and nothing else, in whatever order
    the map was ranged over. *)
Theorem otelConfig_receiver_names c w cfg s' :
  run (otelConfig C c) w = (inr cfg, s') ->
  exists g rs,
    translatedGraph (trace s') = Some g /\
    tracesList g "receivers" = Some rs /\
    NoDup rs /\
    (forall name, name ∈ rs <-> is_Some (Receivers c !! name)).
Proof.
  intros Hrun. destruct (otelConfig_success _ _ _ _ Hrun) as (g & Hg).
  pose proof Hg as Hg'.
  replace s' with (run (otelConfig C c) w).2 in Hg' by (by rewrite Hrun).
  apply otelConfig_graph_inv in Hg' as (_ & headers & s1 & _ & Ht).
  exists g, (rangeKeys C (world s1) (Receivers c)).
  split; [done|]. split; [apply Ht|].
  pose proof (rangeKeys_perm C (world s1) (Receivers c)) as Hp.
  split.
  - rewrite Hp. apply NoDup_fst_map_to_list.
  - intros name. rewrite Hp, list_elem_of_fmap. split.
    + intros ([k v] & -> & Hin). apply elem_of_map_to_list in Hin. eauto.
    + intros [v Hv]. exists (name, v). by rewrite elem_of_map_to_list.
Qed.

(** *** Errors *)

(** C4: the run fails with a ConfigInvalid error exactly when the
    configuration is disabled, has no receivers, or has an empty
    remote_write.url; and then nothing has been called: the trace is
    empty and the world untouched. *)
Theorem otelConfig_config_invalid c w :
  ((exists e, (run (otelConfig C c) w).1 = inl e /\ isConfigInvalid e = true) <->
   (Enabled c = false \/ Receivers c = ∅ \/ URL (RemoteWrite c) = "")) /\
  ((Enabled c = false \/ Receivers c = ∅ \/ URL (RemoteWrite c) = "") ->
   (run (otelConfig C c) w).2 = {| world := w; trace := [] |} /\
   List.filter isFactoryEvent (trace (run (otelConfig C c) w).2) = []).
Proof.
  split.
  - split.
    + intros (e & He & Hi). destruct (passesChecks_dec c) as [Hc|Hc]; [|done].
      destruct (exporterHeaders C (RemoteWrite c) {| world := w; trace := [] |})
        as [[e'|headers] s1] eqn:Hh.
      * pose proof (otelConfig_checked c w _ _ Hc Hh) as Hrun. cbv beta iota in Hrun.
        rewrite Hrun in He. injection He as ->.
        apply exporterHeaders_shape in Hh as [_ [_ Hn]]. congruence.
      * destruct (otelConfig_translates c w _ _ Hc Hh) as (_ & _ & _ & _ & _ & Hn).
        apply Hn in He as [? _]. congruence.
    + intros Hc. destruct (otelConfig_rejected c w Hc) as (e & Hrun & Hi).
      exists e. by rewrite Hrun.
  - intros Hc. destruct (otelConfig_rejected c w Hc) as (e & Hrun & Hi).
    by rewrite Hrun.
Qed.


(** *** Startup and shutdown *)

Ltac next_lifecycle_call :=
  match goal with
  | |- context [ExportersBuilder_Build C ?l ?o ?f ?w] =>
      destruct (ExportersBuilder_Build C l o f w) as [[? [?|]] ?] eqn:?
  | |- context [Exporters_StartAll C ?h ?w] =>
      destruct (Exporters_StartAll C h w) as [[?|] ?] eqn:?
  | |- context [PipelinesBuilder_Build C ?l ?o ?x ?f ?w] =>
      destruct (PipelinesBuilder_Build C l o x f w) as [[? [?|]] ?] eqn:?
  | |- context [BuiltPipelines_StartProcessors C ?h ?w] =>
      destruct (BuiltPipelines_StartProcessors C h w) as [[?|] ?] eqn:?
  | |- context [ReceiversBuilder_Build C ?l ?o ?x ?f ?w] =>
      destruct (ReceiversBuilder_Build C l o x f w) as [[? [?|]] ?] eqn:?
  | |- context [Receivers_StartAll C ?h ?w] =>
      destruct (Receivers_StartAll C h w) as [[?|] ?] eqn:?
  end.

Lemma filter_quiet (p : event L -> bool) (tr : list (event L)) :
  Forall (fun ev => p ev = false) tr -> List.filter p tr = [].
Proof. induction 1 as [|ev tr Hev _ IH]; simpl; [done|]. by rewrite Hev. Qed.

Lemma otelConfig_quiet c w : Forall quietEvent (trace (run (otelConfig C c) w).2).
Proof.
  destruct (passesChecks_dec c) as [Hc|Hc].
  - destruct (exporterHeaders C (RemoteWrite c) {| world := w; trace := [] |})
      as [[e|headers] s1] eqn:Hh.
    + pose proof (otelConfig_checked c w _ _ Hc Hh) as Hrun. cbv beta iota in Hrun.
      rewrite Hrun. cbn [snd].
      apply exporterHeaders_shape in Hh as [[->|[p ->]] _]; by repeat constructor.
    + pose proof (otelConfig_checked c w _ _ Hc Hh)
        as (g & r & s2 & rest & Hrun & Htr & Hrest & _).
      rewrite Hrun. cbn [snd]. rewrite Htr.
      apply Forall_app. split.
      * apply exporterHeaders_shape in Hh as [[->|[p ->]] _]; by repeat constructor.
      * constructor; [done|].
        eapply Forall_impl; [exact Hrest|]. by intros [] ?.
  - destruct (otelConfig_rejected c w Hc) as (e & Hrun & _). rewrite Hrun. constructor.
Qed.

Lemma tracingFactories_quiet s :
  exists r s' rest,
    tracingFactories C s = (r, s') /\
    trace s' = (trace s ++ rest)%list /\ Forall quietEvent rest.
Proof.
  destruct (tracingFactories_trace s) as (r & s' & rest & Hf & Htr & Hrest & _).
  exists r, s', rest. split; [done|]. split; [done|].
  eapply Forall_impl; [exact Hrest|]. by intros ? [k ->].
Qed.

(** X12: the build and start calls of a startup are an initial part of
    [lifecycle]: the whole of it on success; on failure the part made
    so far decides the message of the error.  Nothing is shut down. *)
Lemma buildAndStartPipeline_stages t c w :
  exists n,
    List.filter isLifecycle (trace (run (buildAndStartPipeline C t c) w).2)
      = take n lifecycle /\
    List.filter isShutdown (trace (run (buildAndStartPipeline C t c) w).2) = [] /\
    match (run (buildAndStartPipeline C t c) w).1 with
    | inr _ => n = 6
    | inl e => exists msg, message e = Some msg /\ msg ∈ failureMessages n
    end.
Proof.
  pose proof (otelConfig_quiet c w) as Hq. unfold run in Hq.
  destruct (run (buildAndStartPipeline C t c) w) as [res s] eqn:Hr.
  cbn [fst snd]. revert Hr. unfold run, buildAndStartPipeline.
  unfold bind at 1, wrapping at 1.
  destruct (otelConfig C c {| world := w; trace := [] |}) as [[e|oc] [w1 tr1]].
  { intros [= <- <-]. exists 0. cbn [fst snd trace] in *.
    rewrite !filter_quiet;
      [| eapply Forall_impl; [exact Hq|]; by intros ? [] ..].
    split; [done|]. split; [done|]. eexists. split; [done|]. set_solver. }
  cbn [snd trace] in Hq. cbv beta iota.
  unfold bind at 1, wrapping at 1.
  destruct (tracingFactories_quiet {| world := w1; trace := tr1 |})
    as (r & [w2 tr2] & rest & -> & Htr & Hrest).
  cbn [trace] in Htr. subst tr2.
  assert (Hl1 : List.filter isLifecycle tr1 = [])
    by (apply filter_quiet; eapply Forall_impl; [exact Hq|]; by intros ? []).
  assert (Hl2 : List.filter isLifecycle rest = [])
    by (apply filter_quiet; eapply Forall_impl; [exact Hrest|]; by intros ? []).
  assert (Hs1 : List.filter isShutdown tr1 = [])
    by (apply filter_quiet; eapply Forall_impl; [exact Hq|]; by intros ? []).
  assert (Hs2 : List.filter isShutdown rest = [])
    by (apply filter_quiet; eapply Forall_impl; [exact Hrest|]; by intros ? []).
  destruct r as [e|factories].
  { cbv beta iota. intros [= <- <-]. exists 0. cbn [fst snd trace].
    rewrite !List.filter_app, Hl1, Hl2, Hs1, Hs2.
    split; [done|]. split; [done|]. eexists. split; [done|]. set_solver. }
  repeat (monad_simpl; next_lifecycle_call); monad_simpl.
  all: intros [= <- <-].
  all: cbn [trace]; rewrite !List.filter_app, Hl1, Hl2, Hs1, Hs2;
    cbn [List.filter isLifecycle isShutdown app].
  1: exists 1. 2: exists 2. 3: exists 3. 4: exists 4. 5: exists 5. 6,7: exists 6.
  all: split; [done|]; split; [done|]; try done.
  all: eexists; split; [done|]; set_solver.
Qed.

(** C7: [Stop] shuts down the receivers, then the processors, then the
    receivers again; each call is made whatever the earlier ones
    returned, an error is logged and nothing else, and [Stop] itself
    returns normally. *)
Theorem Stop_sequence t w :
  exists e1 w1 e2 w2 e3 w3,
    Receivers_ShutdownAll C (receivers t) w = (e1, w1) /\
    BuiltPipelines_ShutdownProcessors C (pipelines t) w1 = (e2, w2) /\
    Receivers_ShutdownAll C (receivers t) w2 = (e3, w3) /\
    run (Stop C t) w =
      (inr tt,
       {| world := w3;
          trace :=
            EvShutdownReceivers :: logged "failed to shutdown receiver" e1 ++
            EvShutdownProcessors :: logged "failed to shutdown processors" e2 ++
            EvShutdownReceivers :: logged "failed to shutdown receivers" e3 |}) /\
    List.filter isShutdown (trace (run (Stop C t) w).2) =
      [EvShutdownReceivers; EvShutdownProcessors; EvShutdownReceivers].
Proof.
  unfold run, Stop, logger_Error.
  destruct (Receivers_ShutdownAll C (receivers t) w) as [e1 w1] eqn:H1.
  destruct (BuiltPipelines_ShutdownProcessors C (pipelines t) w1) as [e2 w2] eqn:H2.
  destruct (Receivers_ShutdownAll C (receivers t) w2) as [e3 w3] eqn:H3.
  exists e1, w1, e2, w2, e3, w3. do 3 (split; [done|]).
  monad_simpl. rewrite H1.
  destruct e1; monad_simpl; rewrite H2.
  all: destruct e2; monad_simpl; rewrite H3.
  all: destruct e3; monad_simpl; done.
Qed.

End Facts.

(** ** The model at work on the sample collector *)

Example base64_u_p : base64.EncodeToString "u:p" = "dTpw".
Proof. reflexivity. Qed.

Example base64_colon : base64.EncodeToString ":" = "Og==".
Proof. reflexivity. Qed.

Example base64_padding : base64.EncodeToString "fooba" = "Zm9vYmE=".
Proof. reflexivity. Qed.

Lemma sample_passesChecks enabled r rs url ba b q :
  enabled = true -> url <> "" ->
  passesChecks (Sample.config enabled (r :: rs) url ba b q).
Proof.
  intros -> Hu. split; [done|]. split; [|done].
  cbn. apply insert_non_empty.
Defined.

Lemma otelConfig_single_otlp_exporter_witness :
  run (otelConfig Sample.C Sample.full) Sample.quiet
    = (inr tt, (run (otelConfig Sample.C Sample.full) Sample.quiet).2) /\
  exists g entry,
    translatedGraph (trace (run (otelConfig Sample.C Sample.full) Sample.quiet).2) = Some g /\
    section g "exporters" = Some {[ "otlp" := VMap entry ]} /\
    entry !! "endpoint" = Some (VString "tempo:55680") /\
    tracesList g "exporters" = Some ["otlp"] /\
    (is_Some (exporterHeader g "otlp" "Authorization") <->
     is_Some (BasicAuth (RemoteWrite Sample.full))).
Proof.
  split; [by vm_compute|].
  apply (otelConfig_single_otlp_exporter Sample.C Sample.full Sample.quiet tt).
  by vm_compute.
Defined.

Lemma otelConfig_basic_auth_header_witness :
  passesChecks Sample.full /\
  exists g,
    translatedGraph (trace (run (otelConfig Sample.C Sample.full) Sample.quiet).2) = Some g /\
    exporterHeader g "otlp" "Authorization" = Some "Basic dTpw".
Proof.
  split; [by apply sample_passesChecks|].
  destruct (otelConfig_basic_auth_header Sample.C Sample.full Sample.quiet
              {| Username := "u"; Password := "p"; PasswordFile := "" |})
    as (g & Hg & _ & Hup).
  - by apply sample_passesChecks.
  - reflexivity.
  - reflexivity.
  - exists g. split; [exact Hg|]. by apply Hup.
Defined.

Lemma otelConfig_password_file_verbatim_witness :
  passesChecks Sample.fromFile /\
  exists g,
    translatedGraph
      (trace (run (otelConfig Sample.C Sample.fromFile)
                  (Sample.withFile "/etc/pw" ("secret " +:+ Sample.newline))).2) = Some g /\
    exporterHeader g "otlp" "Authorization" =
      Some ("Basic " +:+ base64.EncodeToString ("u:secret " +:+ Sample.newline)).
Proof.
  split; [by apply sample_passesChecks|].
  apply (otelConfig_password_file_verbatim Sample.C Sample.fromFile
           (Sample.withFile "/etc/pw" ("secret " +:+ Sample.newline))
           {| Username := "u"; Password := "inline"; PasswordFile := "/etc/pw" |}
           ("secret " +:+ Sample.newline)
           (Sample.withFile "/etc/pw" ("secret " +:+ Sample.newline))).
  - by apply sample_passesChecks.
  - reflexivity.
  - discriminate.
  - reflexivity.
Defined.

(** The header made from the file keeps the blank and the newline: it is
    not the header of the trimmed password, nor of the inline one. *)
Example password_file_not_trimmed :
  base64.EncodeToString ("u:secret " +:+ Sample.newline) = "dTpzZWNyZXQgCg==" /\
  base64.EncodeToString "u:secret" = "dTpzZWNyZXQ=" /\
  base64.EncodeToString "u:inline" = "dTppbmxpbmU=".
Proof. by vm_compute. Qed.

Lemma otelConfig_empty_credentials_witness :
  passesChecks Sample.blank /\
  exists g rest,
    trace (run (otelConfig Sample.C Sample.blank) Sample.quiet).2
      = EvMergeConfigMap g :: rest /\
    exporterHeader g "otlp" "Authorization" = Some "Basic Og==" /\
    (forall e, (run (otelConfig Sample.C Sample.blank) Sample.quiet).1 = inl e ->
               isConfigInvalid e = false /\ isCredentialLoadError e = false).
Proof.
  split; [by apply sample_passesChecks|].
  apply (otelConfig_empty_credentials Sample.C Sample.blank Sample.quiet
           {| Username := ""; Password := ""; PasswordFile := "" |}).
  - by apply sample_passesChecks.
  - reflexivity.
  - reflexivity.
  - reflexivity.
  - reflexivity.
Defined.

Lemma otelConfig_processor_names_witness :
  let g := default ∅ (translatedGraph
                        (trace (run (otelConfig Sample.C Sample.full) Sample.quiet).2)) in
  translatedGraph (trace (run (otelConfig Sample.C Sample.full) Sample.quiet).2) = Some g /\
  tracesList g "processors" = Some ["batch"; "queue"] /\
  exists ps,
    section g "processors" = Some ps /\
    (is_Some (ps !! "batch") <-> is_Some (Batch (RemoteWrite Sample.full))) /\
    (is_Some (ps !! "queue") <-> is_Some (Queue (RemoteWrite Sample.full))) /\
    (forall k, k <> "batch" -> k <> "queue" -> ps !! k = None).
Proof.
  intros g.
  assert (Hg : translatedGraph
                 (trace (run (otelConfig Sample.C Sample.full) Sample.quiet).2) = Some g)
    by (vm_compute; reflexivity).
  clearbody g. split; [exact Hg|].
  exact (otelConfig_processor_names Sample.C Sample.full Sample.quiet g Hg).
Defined.

Lemma otelConfig_receiver_names_witness :
  run (otelConfig Sample.C Sample.full) Sample.quiet
    = (inr tt, (run (otelConfig Sample.C Sample.full) Sample.quiet).2) /\
  exists g rs,
    translatedGraph (trace (run (otelConfig Sample.C Sample.full) Sample.quiet).2) = Some g /\
    tracesList g "receivers" = Some rs /\
    NoDup rs /\
    (forall name, name ∈ rs <-> is_Some (Receivers Sample.full !! name)).
Proof.
  split; [by vm_compute|].
  apply (otelConfig_receiver_names Sample.C Sample.full Sample.quiet tt).
  by vm_compute.
Defined.

(** for the sample: the receivers are "jaeger" and "zipkin" *)
Example receiver_names_of_sample :
  (translatedGraph (trace (run (otelConfig Sample.C Sample.full) Sample.quiet).2)
     ≫= fun g => tracesList g "receivers") = Some ["zipkin"; "jaeger"].
Proof. by vm_compute. Qed.

Lemma otelConfig_config_invalid_witness :
  (Enabled Sample.disabled = false \/ Receivers Sample.disabled = ∅ \/
   URL (RemoteWrite Sample.disabled) = "") /\
  (exists e, (run (otelConfig Sample.C Sample.disabled) Sample.quiet).1 = inl e /\
             isConfigInvalid e = true) /\
  (run (otelConfig Sample.C Sample.disabled) Sample.quiet).2
    = @Build_state Sample.L Sample.quiet [].
Proof.
  assert (H : Enabled Sample.disabled = false \/ Receivers Sample.disabled = ∅ \/
              URL (RemoteWrite Sample.disabled) = "") by (left; reflexivity).
  split; [exact H|].
  destruct (otelConfig_config_invalid Sample.C Sample.disabled Sample.quiet) as [Hiff Htr].
  split; [by apply Hiff | by apply Htr].
Defined.



(** C8 at a failing input: the exporters are built and started, the
    build of the pipelines fails, and the error says "failed to build
    exporters", the very message of a failed build of the exporters. *)
Theorem buildAndStartPipeline_pipelines_failure_misnamed :
  List.filter isLifecycle
    (trace (run (buildAndStartPipeline Sample.C Sample.tempo Sample.plain)
                (Sample.breaking "PipelinesBuilder.Build")).2)
    = [EvBuildExporters; EvStartExporters; EvBuildPipelines] /\
  (run (buildAndStartPipeline Sample.C Sample.tempo Sample.plain)
       (Sample.breaking "PipelinesBuilder.Build")).1
    = inl (fmt_Errorf "failed to build exporters %w" []
             (External ("PipelinesBuilder.Build failed" : ExtErr Sample.L))) /\
  List.filter isLifecycle
    (trace (run (buildAndStartPipeline Sample.C Sample.tempo Sample.plain)
                (Sample.breaking "ExportersBuilder.Build")).2)
    = [EvBuildExporters] /\
  (run (buildAndStartPipeline Sample.C Sample.tempo Sample.plain)
       (Sample.breaking "ExportersBuilder.Build")).1
    = inl (fmt_Errorf "failed to build exporters %w" []
             (External ("ExportersBuilder.Build failed" : ExtErr Sample.L))).
Proof. by vm_compute. Qed.

(** A shutdown of the receivers that fails both times is logged both
    times, and the processors are shut down in between all the same. *)
Example Stop_with_failing_receivers :
  run (Stop Sample.C Sample.tempo) (Sample.breaking "Receivers.ShutdownAll")
    = (inr tt,
       @Build_state Sample.L (Sample.breaking "Receivers.ShutdownAll")
         [ EvShutdownReceivers;
           EvLogError "failed to shutdown receiver"
             (External ("Receivers.ShutdownAll failed" : ExtErr Sample.L));
           EvShutdownProcessors;
           EvShutdownReceivers;
           EvLogError "failed to shutdown receivers"
             (External ("Receivers.ShutdownAll failed" : ExtErr Sample.L)) ]).
Proof. reflexivity. Qed.

(** * The rest of the package, and how its parts compose *)

Section Composition.

Context {L : Library} (C : Collector L).

Implicit Types (c : Config L) (w : World L) (s : state L) (t : Tempo L).

(** *** Every computation of the package is [framed] *)

Lemma framed_ret {A} (a : A) : framed (ret (L:=L) a).
Proof. intros w tr. unfold ret. cbn. by rewrite app_nil_r. Qed.

Lemma framed_fail {A} (e : error L) : framed (fail (A:=A) e).
Proof. intros w tr. unfold fail. cbn. by rewrite app_nil_r. Qed.

Lemma framed_call {A} (ev : event L) (op : World L -> A * World L) : framed (call ev op).
Proof. intros w tr. unfold call. cbn. by destruct (op w). Qed.

Lemma framed_peek {A} (f : World L -> A) : framed (peek f).
Proof. intros w tr. unfold peek. cbn. by rewrite app_nil_r. Qed.

Lemma framed_bind {A B} (m : M L A) (k : A -> M L B) :
  framed m -> (forall a, framed (k a)) -> framed (bind m k).
Proof.
  intros Hm Hk w tr. unfold bind. rewrite (Hm w tr).
  destruct (m {| world := w; trace := [] |}) as [[e|a] [w1 tr1]]; cbn [fst snd world trace].
  - done.
  - rewrite (Hk a w1 (tr ++ tr1)%list), (Hk a w1 tr1).
    destruct (k a {| world := w1; trace := [] |}) as [r [w2 tr2]]; cbn [fst snd world trace].
    by rewrite app_assoc.
Qed.

Lemma framed_wrapping {A} (wrap : error L -> error L) (m : M L A) :
  framed m -> framed (wrapping wrap m).
Proof.
  intros Hm w tr. unfold wrapping. rewrite (Hm w tr).
  by destruct (m {| world := w; trace := [] |}) as [[e|a] [w1 tr1]].
Qed.

Lemma framed_return_if (err : option (ExtErr L)) (wrap : error L -> error L) :
  framed (return_if err wrap).
Proof. destruct err; [apply framed_fail | apply framed_ret]. Qed.

Lemma framed_logger_Error (l : zap_Logger L) (msg : string) (err : error L) :
  framed (logger_Error l msg err).
Proof. by intros w tr. Qed.

Ltac framed_step :=
  lazymatch goal with
  | |- framed (ret _) => apply framed_ret
  | |- framed (fail _) => apply framed_fail
  | |- framed (call _ _) => apply framed_call
  | |- framed (peek _) => apply framed_peek
  | |- framed (return_if _ _) => apply framed_return_if
  | |- framed (logger_Error _ _ _) => apply framed_logger_Error
  | |- framed (wrapping _ _) => apply framed_wrapping
  | |- framed (bind _ _) => apply framed_bind; [| intros ?]
  | |- framed (let '(_, _) := ?x in _) => destruct x
  | |- framed (match ?x with _ => _ end) => destruct x
  | |- framed (if ?b then _ else _) => destruct b
  end.

Lemma framed_tracingFactories : framed (tracingFactories C).
Proof. unfold tracingFactories. repeat framed_step. Qed.

Lemma framed_exporterHeaders rw : framed (exporterHeaders C rw).
Proof. unfold exporterHeaders. repeat framed_step. Qed.

Lemma framed_otelConfig c : framed (otelConfig C c).
Proof.
  unfold otelConfig.
  repeat first [ apply framed_exporterHeaders | apply framed_tracingFactories | framed_step ].
Qed.

Lemma framed_buildAndStartPipeline t c : framed (buildAndStartPipeline C t c).
Proof.
  unfold buildAndStartPipeline.
  repeat first [ apply framed_otelConfig | apply framed_tracingFactories | framed_step ].
Qed.

Lemma framed_New c : framed (New C c).
Proof.
  unfold New. repeat first [ apply framed_buildAndStartPipeline | framed_step ].
Qed.

Lemma framed_Stop t : framed (Stop C t).
Proof. unfold Stop. repeat framed_step. Qed.

End Composition.

(** * The package, call by call

    What each run calls, in which worlds, and what it returns: the
    accounts the properties below are drawn from. *)

Section Calls.

Context {L : Library} (C : Collector L).

Implicit Types (c : Config L) (w : World L) (s : state L) (t : Tempo L).

Ltac monad_simpl :=
  cbv beta iota delta [bind call ret fail return_if wrapping peek id];
  cbn [world trace fst snd].

Ltac next_call :=
  match goal with
  | |- context [ioutil_ReadFile C ?p ?w] =>
      destruct (ioutil_ReadFile C p w) as [[? [?|]] ?] eqn:?
  | |- context [viper_MergeConfigMap C ?v ?g ?w] =>
      destruct (viper_MergeConfigMap C v g w) as [[? [?|]] ?] eqn:?
  | |- context [component_MakeFactoryMap C ?k ?fs ?w] =>
      destruct (component_MakeFactoryMap C k fs w) as [[? [?|]] ?] eqn:?
  | |- context [config_Load C ?v ?f ?w] =>
      destruct (config_Load C v f w) as [[? [?|]] ?] eqn:?
  end.

(** *** The factory registry *)

Lemma tracingFactories_run s :
  exists n,
    1 <= n <= 4 /\
    trace (tracingFactories C s).2 = (trace s ++ take n factoryCalls)%list /\
    match (tracingFactories C s).1 with
    | inr _ => n = 4
    | inl e => exists x, e = External x
    end.
Proof.
  destruct s as [w tr]. unfold tracingFactories.
  repeat (monad_simpl; next_call); monad_simpl.
  1: exists 1. 2: exists 2. 3: exists 3. 4,5: exists 4.
  all: rewrite <- ?app_assoc; cbn [take factoryCalls app]; repeat split; eauto; lia.
Qed.

(** *** [otelConfig], call by call *)

Lemma otelConfig_checked_exact c w headers s1 :
  passesChecks c ->
  exporterHeaders C (RemoteWrite c) {| world := w; trace := [] |} = (inr headers, s1) ->
  exists ps g n,
    ps !! "batch" = VBatch <$> Batch (RemoteWrite c) /\
    ps !! "queue" = VQueue <$> Queue (RemoteWrite c) /\
    dom ps = list_to_set (processorNamesFor (RemoteWrite c)) /\
    g = <[ "pipelines" :=
             VMap {[ "traces" :=
                       VMap (<[ "exporters" := VStrings ["otlp"] ]>
                            (<[ "processors" :=
                                  VStrings (processorNamesFor (RemoteWrite c)) ]>
                            (<[ "receivers" :=
                                  VStrings (rangeKeys C (world s1) (Receivers c)) ]> ∅))) ]} ]>
          (<[ "receivers" := VReceivers (Receivers c) ]>
          (<[ "processors" := VMap ps ]>
          (<[ "exporters" :=
                VMap {[ "otlp" :=
                          VMap (<[ "endpoint" := VString (URL (RemoteWrite c)) ]>
                               (<[ "headers" := VHeaders headers ]> ∅)) ]} ]> ∅))) /\
    1 <= n <= 6 /\
    trace (run (otelConfig C c) w).2 = (trace s1 ++ take n (translationCalls g))%list /\
    match (run (otelConfig C c) w).1 with
    | inr cfg =>
        n = 6 /\
        exists v w2 fs w3,
          viper_MergeConfigMap C (viper_New C) g (world s1) = ((v, None), w2) /\
          config_Load C v fs w3 = ((cfg, None), world (run (otelConfig C c) w).2)
    | inl e =>
        exists x,
          (n = 1 /\ e = fmt_Errorf "failed to merge in mapstructure config %w" [] (External x)) \/
          (2 <= n <= 5 /\ e = fmt_Errorf "failed to create factories %w" [] (External x)) \/
          (n = 6 /\ e = fmt_Errorf "failed to load OTel config %w" [] (External x))
    end.
Proof.
  intros (He & Hr & Hu) Hh.
  destruct (run (otelConfig C c) w) as [r s2] eqn:Hrun. cbn [fst snd]. revert Hrun.
  unfold run, otelConfig. rewrite He. cbn [negb].
  destruct (size (Receivers c) =? 0)%nat eqn:Hs; [by apply size_eqb_0 in Hs|].
  destruct (String.length (URL (RemoteWrite c)) =? 0)%nat eqn:Hl;
    [by apply length_eqb_0 in Hl|].
  unfold bind at 1. rewrite Hh. unfold processorNamesFor.
  destruct (Batch (RemoteWrite c)) as [b|] eqn:Hb, (Queue (RemoteWrite c)) as [q|] eqn:Hq.
  all: cbv beta iota; unfold bind at 1, peek at 1; cbv beta iota.
  all: rewrite appendNames_id; cbn [app].
  all: match goal with
       | |- context [<["processors" := VMap ?m]> _] => pose (ps := m)
       end.
  all: match goal with
       | |- context [EvMergeConfigMap ?g0] => set (g := g0)
       end.
  all: destruct s1 as [w1 tr1]; unfold tracingFactories.
  all: repeat (monad_simpl; next_call); monad_simpl.
  all: unfold translationCalls, factoryCalls; rewrite <- ?app_assoc; cbn [app].
  all: assert (Hd : forall n : nat, 1 <= n <= 6 -> 1 <= n <= 6) by done.
  all: intros [= <- <-]; cbn [trace]; exists ps, g.
  all: match goal with
       | |- exists n, ?P1 /\ ?P2 /\ ?P3 /\ ?P4 /\ _ =>
           assert (H1 : P1) by (by rewrite ?lookup_insert_eq, ?lookup_insert_ne, ?lookup_empty by done);
           assert (H2 : P2) by (by rewrite ?lookup_insert_eq, ?lookup_insert_ne, ?lookup_empty by done);
           assert (H3 : P3) by (rewrite ?dom_insert_L, ?dom_empty_L; set_solver);
           assert (H4 : P4) by reflexivity
       end.
  all: first
         [ exists 1; split_and!; [exact H1|exact H2|exact H3|exact H4|lia|lia|cbn [take]; reflexivity|idtac..]; cbn [world]; eauto 10 |
           exists 2; split_and!; [exact H1|exact H2|exact H3|exact H4|lia|lia|cbn [take]; reflexivity|idtac..]; cbn [world]; eauto 10 |
           exists 3; split_and!; [exact H1|exact H2|exact H3|exact H4|lia|lia|cbn [take]; reflexivity|idtac..]; cbn [world]; eauto 10 |
           exists 4; split_and!; [exact H1|exact H2|exact H3|exact H4|lia|lia|cbn [take]; reflexivity|idtac..]; cbn [world]; eauto 10 |
           exists 5; split_and!; [exact H1|exact H2|exact H3|exact H4|lia|lia|cbn [take]; reflexivity|idtac..]; cbn [world]; eauto 10 |
           exists 6; split_and!; [exact H1|exact H2|exact H3|exact H4|lia|lia|cbn [take]; reflexivity|idtac..]; cbn [world]; eauto 10 ].
Qed.

Lemma exporterHeaders_cases rw w :
  (BasicAuth rw = None /\
   exporterHeaders C rw {| world := w; trace := [] |}
     = (inr None, {| world := w; trace := [] |})) \/
  (exists ba,
     BasicAuth rw = Some ba /\ PasswordFile ba = "" /\
     exporterHeaders C rw {| world := w; trace := [] |}
       = (inr (Some {[ "Authorization" :=
                         "Basic " +:+ base64.EncodeToString
                                        (Username ba +:+ ":" +:+ Password ba) ]}),
          {| world := w; trace := [] |})) \/
  (exists ba buff err w',
     BasicAuth rw = Some ba /\ PasswordFile ba <> "" /\
     ioutil_ReadFile C (PasswordFile ba) w = ((buff, err), w') /\
     exporterHeaders C rw {| world := w; trace := [] |}
       = ( match err with
           | Some x =>
               inl (fmt_Errorf "unable to load password file %s %w" [PasswordFile ba]
                               (External x))
           | None =>
               inr (Some {[ "Authorization" :=
                              "Basic " +:+ base64.EncodeToString
                                             (Username ba +:+ ":" +:+ buff) ]})
           end,
           {| world := w'; trace := [EvReadFile (PasswordFile ba)] |} )).
Proof.
  destruct (BasicAuth rw) as [ba|] eqn:Hba.
  - right. destruct (decide (PasswordFile ba = "")) as [Hf|Hf].
    + left. exists ba. split; [done|]. split; [done|].
      by apply exporterHeaders_inline.
    + right.
      destruct (ioutil_ReadFile C (PasswordFile ba) w) as [[buff err] w'] eqn:Hr.
      exists ba, buff, err, w'. split; [done|]. split; [done|]. split; [done|].
      by rewrite (exporterHeaders_file C rw ba {| world := w; trace := [] |} buff err w').
  - left. split; [done|]. by apply exporterHeaders_none.
Qed.


Lemma otelConfig_success_calls c w oc s1 :
  run (otelConfig C c) w = (inr oc, s1) ->
  exists reads g,
    trace s1 = (reads ++ translationCalls g)%list /\
    (reads = [] \/
     exists ba, BasicAuth (RemoteWrite c) = Some ba /\ PasswordFile ba <> "" /\
                reads = [EvReadFile (PasswordFile ba)]).
Proof.
  intros Hrun. destruct (passesChecks_dec c) as [Hc|Hc].
  - assert (Hex : forall headers s0,
              exporterHeaders C (RemoteWrite c) {| world := w; trace := [] |}
                = (inr headers, s0) ->
              exists g, trace s1 = (trace s0 ++ translationCalls g)%list).
    { intros headers s0 Hh.
      destruct (otelConfig_checked_exact c w _ _ Hc Hh)
        as (ps & g & n & _ & _ & _ & _ & _ & Htr & Hres).
      rewrite Hrun in Htr, Hres. cbn [fst snd] in *. destruct Hres as [-> _]. by exists g. }
    destruct (exporterHeaders_cases (RemoteWrite c) w)
      as [[Hba Hh]|[(ba & Hba & Hf & Hh)|(ba & buff & err & w' & Hba & Hf & Hr & Hh)]].
    + destruct (Hex _ _ Hh) as [g Hg]. exists [], g. split; [done|]. by left.
    + destruct (Hex _ _ Hh) as [g Hg]. exists [], g. split; [done|]. by left.
    + destruct err as [x|].
      * pose proof (otelConfig_checked C c w _ _ Hc Hh) as Hrun'. cbv beta iota in Hrun'.
        congruence.
      * destruct (Hex _ _ Hh) as [g Hg]. exists [EvReadFile (PasswordFile ba)], g.
        split; [done|]. right. eauto.
  - destruct (otelConfig_rejected C c w Hc) as (e & Hrun' & _). congruence.
Qed.

(** *** Startup and shutdown, call by call *)

Ltac next_lifecycle_call :=
  match goal with
  | |- context [ExportersBuilder_Build C ?l ?o ?f ?w] =>
      destruct (ExportersBuilder_Build C l o f w) as [[? [?|]] ?] eqn:?
  | |- context [Exporters_StartAll C ?h ?w] =>
      destruct (Exporters_StartAll C h w) as [[?|] ?] eqn:?
  | |- context [PipelinesBuilder_Build C ?l ?o ?x ?f ?w] =>
      destruct (PipelinesBuilder_Build C l o x f w) as [[? [?|]] ?] eqn:?
  | |- context [BuiltPipelines_StartProcessors C ?h ?w] =>
      destruct (BuiltPipelines_StartProcessors C h w) as [[?|] ?] eqn:?
  | |- context [ReceiversBuilder_Build C ?l ?o ?x ?f ?w] =>
      destruct (ReceiversBuilder_Build C l o x f w) as [[? [?|]] ?] eqn:?
  | |- context [Receivers_StartAll C ?h ?w] =>
      destruct (Receivers_StartAll C h w) as [[?|] ?] eqn:?
  end.

Lemma buildAndStartPipeline_success_exact t c w t' s' :
  run (buildAndStartPipeline C t c) w = (inr t', s') ->
  exists oc s1 fs s2 w3 w4 w5 w6 w7,
    run (otelConfig C c) w = (inr oc, s1) /\
    tracingFactories C s1 = (inr fs, s2) /\
    ExportersBuilder_Build C (logger t) oc (Exporters fs) (world s2)
      = ((exporter t', None), w3) /\
    Exporters_StartAll C (exporter t') w3 = (None, w4) /\
    PipelinesBuilder_Build C (logger t) oc (exporter t') (Processors fs) w4
      = ((pipelines t', None), w5) /\
    BuiltPipelines_StartProcessors C (pipelines t') w5 = (None, w6) /\
    ReceiversBuilder_Build C (logger t) oc (pipelines t') (ReceiversF fs) w6
      = ((receivers t', None), w7) /\
    Receivers_StartAll C (receivers t') w7 = (None, world s') /\
    logger t' = logger t /\
    trace s' = (trace s2 ++ lifecycle)%list.
Proof.
  unfold run, buildAndStartPipeline.
  unfold bind at 1, wrapping at 1.
  destruct (otelConfig C c {| world := w; trace := [] |}) as [[e|oc] s1] eqn:Ho;
    [discriminate|].
  cbv beta iota. unfold bind at 1, wrapping at 1.
  destruct (tracingFactories C s1) as [[e|fs] [w2 tr2]] eqn:Hf; [discriminate|].
  repeat (monad_simpl; next_lifecycle_call); monad_simpl; try discriminate.
  intros [= <- <-]. cbn [logger exporter pipelines receivers world trace] in *.
  exists oc, s1, fs. eexists. do 5 eexists.
  split_and!; try eassumption; try reflexivity.
  unfold lifecycle. by rewrite <- !app_assoc.
Qed.

Lemma New_unfold c w :
  run (New C c) w =
    match zap_NewProduction C w with
    | ((lg, Some x), w1) =>
        (inl (fmt_Errorf "failed to create zap prod logger %w" [] (External x)),
         {| world := w1; trace := [EvNewProduction] |})
    | ((lg, None), w1) =>
        let r := run (buildAndStartPipeline C
                        {| logger := lg; exporter := nil_Exporters L;
                           pipelines := nil_BuiltPipelines L;
                           receivers := nil_Receivers L |} c) w1 in
        ( match r.1 with
          | inl e => inl (fmt_Errorf "failed to create exporter %w" [] e)
          | inr t => inr t
          end,
          {| world := world r.2; trace := EvNewProduction :: trace r.2 |} )
    end.
Proof.
  unfold run, New. monad_simpl.
  destruct (zap_NewProduction C w) as [[lg [x|]] w1]; [done|].
  cbn [exporter pipelines receivers].
  rewrite (framed_buildAndStartPipeline C _ c w1 [EvNewProduction]).
  by destruct (buildAndStartPipeline C _ c {| world := w1; trace := [] |}) as [[e|t] s].
Qed.

Lemma Stop_unfold t s :
  exists e1 w1 e2 w2 e3 w3,
    Receivers_ShutdownAll C (receivers t) (world s) = (e1, w1) /\
    BuiltPipelines_ShutdownProcessors C (pipelines t) w1 = (e2, w2) /\
    Receivers_ShutdownAll C (receivers t) w2 = (e3, w3) /\
    Stop C t s =
      (inr tt,
       {| world := w3;
          trace :=
            trace s ++
            EvShutdownReceivers :: logged "failed to shutdown receiver" e1 ++
            EvShutdownProcessors :: logged "failed to shutdown processors" e2 ++
            EvShutdownReceivers :: logged "failed to shutdown receivers" e3 |}).
Proof.
  destruct s as [w tr]. cbn [world trace]. unfold Stop, logger_Error.
  destruct (Receivers_ShutdownAll C (receivers t) w) as [e1 w1] eqn:H1.
  destruct (BuiltPipelines_ShutdownProcessors C (pipelines t) w1) as [e2 w2] eqn:H2.
  destruct (Receivers_ShutdownAll C (receivers t) w2) as [e3 w3] eqn:H3.
  exists e1, w1, e2, w2, e3, w3. do 3 (split; [done|]).
  monad_simpl. rewrite H1.
  destruct e1; monad_simpl; rewrite H2.
  all: destruct e2; monad_simpl; rewrite H3.
  all: destruct e3; monad_simpl; cbn [logged app]; by rewrite <- ?app_assoc.
Qed.

Lemma buildAndStartPipeline_success_calls t c w t' s' :
  run (buildAndStartPipeline C t c) w = (inr t', s') ->
  exists reads g,
    trace s' = (reads ++ translationCalls g ++ factoryCalls ++ lifecycle)%list /\
    (reads = [] \/
     exists ba, BasicAuth (RemoteWrite c) = Some ba /\ PasswordFile ba <> "" /\
                reads = [EvReadFile (PasswordFile ba)]).
Proof.
  intros Hrun.
  destruct (buildAndStartPipeline_success_exact _ _ _ _ _ Hrun)
    as (oc & s1 & fs & s2 & w3 & w4 & w5 & w6 & w7 & Ho & Hf & _ & _ & _ & _ & _ & _ & _ & Htr).
  destruct (otelConfig_success_calls _ _ _ _ Ho) as (reads & g & Htr1 & Hreads).
  destruct (tracingFactories_run s1) as (n & _ & Htr2 & Hres).
  rewrite Hf in Htr2, Hres. cbn [fst snd] in *. subst n.
  exists reads, g. split; [|done].
  rewrite Htr, Htr2, Htr1. cbn [take factoryCalls]. by rewrite <- !app_assoc.
Qed.

Lemma buildAndStartPipeline_no_shutdown t c w :
  List.filter isShutdown (trace (run (buildAndStartPipeline C t c) w).2) = [].
Proof.
  pose proof (otelConfig_quiet C c w) as Hq. unfold run in Hq.
  destruct (run (buildAndStartPipeline C t c) w) as [res s] eqn:Hr.
  cbn [fst snd]. revert Hr. unfold run, buildAndStartPipeline.
  unfold bind at 1, wrapping at 1.
  destruct (otelConfig C c {| world := w; trace := [] |}) as [[e|oc] [w1 tr1]];
    cbn [snd trace] in Hq.
  all: assert (Hs1 : List.filter isShutdown tr1 = [])
    by (apply filter_quiet; eapply Forall_impl; [exact Hq|]; by intros ? []).
  { by intros [= <- <-]. }
  cbv beta iota. unfold bind at 1, wrapping at 1.
  destruct (tracingFactories_quiet C {| world := w1; trace := tr1 |})
    as (r & [w2 tr2] & rest & -> & Htr & Hrest).
  cbn [trace] in Htr. subst tr2.
  assert (Hs2 : List.filter isShutdown rest = [])
    by (apply filter_quiet; eapply Forall_impl; [exact Hrest|]; by intros ? []).
  destruct r as [e|factories].
  { cbv beta iota. intros [= <- <-]. cbn [trace]. by rewrite List.filter_app, Hs1, Hs2. }
  repeat (monad_simpl; next_lifecycle_call); monad_simpl.
  all: intros [= <- <-]; cbn [trace].
  all: by rewrite !List.filter_app, Hs1, Hs2.
Qed.

Lemma otelConfig_rejected_exact c w :
  Enabled c = false \/ Receivers c = ∅ \/ URL (RemoteWrite c) = "" ->
  run (otelConfig C c) w =
    ( inl (errors_New
             (if negb (Enabled c) then "tempo config not enabled"
              else if decide (Receivers c = ∅)
                   then "must have at least one configured receiver"
                   else "must have a configured remote_write.url")),
      {| world := w; trace := [] |} ).
Proof.
  intros H. unfold run, otelConfig.
  destruct (Enabled c); cbn [negb]; [|done].
  destruct (size (Receivers c) =? 0)%nat eqn:Hs.
  { apply size_eqb_0 in Hs. by rewrite decide_True. }
  assert (Receivers c <> ∅) as Hne by (intros ?%size_eqb_0; congruence).
  rewrite decide_False by done.
  destruct (String.length (URL (RemoteWrite c)) =? 0)%nat eqn:Hu; [done|].
  destruct H as [H|[H|H]]; [done|done|].
  apply length_eqb_0 in H. congruence.
Qed.

(** *** The header value *)

Lemma String_get_elem_of (n : nat) (s : string) (ch : ascii) :
  String.get n s = Some ch -> ch ∈ list_ascii_of_string s.
Proof.
  revert n. induction s as [|a s IH]; intros [|n]; simpl; try discriminate.
  - intros [= ->]. by left.
  - intros H. right. by eapply IH.
Qed.

Lemma base64_encode_char (i : N) :
  base64.encode i ∈ list_ascii_of_string base64.encodeStd \/
  base64.encode i = base64.StdPadding.
Proof.
  unfold base64.encode.
  destruct (String.get (N.to_nat i) base64.encodeStd) as [ch|] eqn:Hg; [|by right].
  left. by eapply String_get_elem_of.
Qed.

Lemma base64_Encode_chars (src : list ascii) :
  Forall (fun ch => ch ∈ list_ascii_of_string base64.encodeStd \/ ch = base64.StdPadding)
         (base64.Encode src).
Proof.
  enough (H : forall n (l : list ascii), length l <= n ->
            Forall (fun ch => ch ∈ list_ascii_of_string base64.encodeStd \/
                              ch = base64.StdPadding) (base64.Encode l))
    by (by apply (H (length src))).
  induction n as [|n IH]; intros [|s0 [|s1 [|s2 rest]]] Hlen;
    cbn [length] in Hlen; try lia; cbn [base64.Encode].
  all: repeat (constructor; [first [apply base64_encode_char | by right]|]).
  all: try constructor.
  - destruct n as [|[|n]]; try lia. apply (Forall_impl _ _ _ (IH rest ltac:(lia))). done.
Qed.


End Calls.

(** * Properties of the translation, the registry and the lifecycle *)

Section Package.

Context {L : Library} (C : Collector L).

Implicit Types (c : Config L) (w : World L) (s : state L) (t : Tempo L).

Ltac monad_simpl :=
  cbv beta iota delta [bind call ret fail return_if wrapping peek id];
  cbn [world trace fst snd].

Ltac next_call :=
  match goal with
  | |- context [ioutil_ReadFile C ?p ?w] =>
      destruct (ioutil_ReadFile C p w) as [[? [?|]] ?] eqn:?
  | |- context [viper_MergeConfigMap C ?v ?g ?w] =>
      destruct (viper_MergeConfigMap C v g w) as [[? [?|]] ?] eqn:?
  | |- context [component_MakeFactoryMap C ?k ?fs ?w] =>
      destruct (component_MakeFactoryMap C k fs w) as [[? [?|]] ?] eqn:?
  | |- context [config_Load C ?v ?f ?w] =>
      destruct (config_Load C v f w) as [[? [?|]] ?] eqn:?
  end.
(** X4: a run of [otelConfig] reads the password file first, if at all,
    and then goes through MergeConfigMap, the four registrations and
    Load, in that order, stopping at the first that fails. *)
Theorem otelConfig_call_order c w :
  exists reads g n,
    trace (run (otelConfig C c) w).2 = (reads ++ take n (translationCalls g))%list /\
    (reads = [] \/
     exists ba, BasicAuth (RemoteWrite c) = Some ba /\ PasswordFile ba <> "" /\
                reads = [EvReadFile (PasswordFile ba)]) /\
    n <= 6 /\
    (forall cfg, (run (otelConfig C c) w).1 = inr cfg -> n = 6).
Proof.
  destruct (passesChecks_dec c) as [Hc|Hc].
  - destruct (exporterHeaders_cases C (RemoteWrite c) w)
      as [[Hba Hh]|[(ba & Hba & Hf & Hh)|(ba & buff & err & w' & Hba & Hf & Hr & Hh)]].
    + destruct (otelConfig_checked_exact C c w _ _ Hc Hh)
        as (ps & g & n & _ & _ & _ & _ & Hn & Htr & Hres).
      exists [], g, n. split; [done|]. split; [by left|]. split; [lia|].
      intros cfg Hcfg. rewrite Hcfg in Hres. by destruct Hres.
    + destruct (otelConfig_checked_exact C c w _ _ Hc Hh)
        as (ps & g & n & _ & _ & _ & _ & Hn & Htr & Hres).
      exists [], g, n. split; [done|]. split; [by left|]. split; [lia|].
      intros cfg Hcfg. rewrite Hcfg in Hres. by destruct Hres.
    + destruct err as [x|].
      * pose proof (otelConfig_checked C c w _ _ Hc Hh) as Hrun. cbv beta iota in Hrun.
        exists [EvReadFile (PasswordFile ba)], ∅, 0. rewrite Hrun. cbn [fst snd trace take].
        split; [done|]. split; [right; eauto|]. split; [lia|]. done.
      * destruct (otelConfig_checked_exact C c w _ _ Hc Hh)
          as (ps & g & n & _ & _ & _ & _ & Hn & Htr & Hres).
        exists [EvReadFile (PasswordFile ba)], g, n.
        split; [done|]. split; [right; eauto|]. split; [lia|].
        intros cfg Hcfg. rewrite Hcfg in Hres. by destruct Hres.
  - destruct (otelConfig_rejected C c w Hc) as (e & Hrun & _).
    exists [], ∅, 0. rewrite Hrun. cbn [fst snd trace take].
    split; [done|]. split; [by left|]. split; [lia|]. done.
Qed.

(** X5: the password file is read exactly when the three checks pass
    and basic_auth names one; no other file is ever read. *)
Theorem otelConfig_reads_password_file_iff c w path :
  EvReadFile path ∈ trace (run (otelConfig C c) w).2 <->
  passesChecks c /\
  exists ba, BasicAuth (RemoteWrite c) = Some ba /\ PasswordFile ba = path /\ path <> "".
Proof.
  assert (Hnot : forall g n, EvReadFile path ∉ take n (translationCalls (L:=L) g)).
  { intros g n Hin. apply (subseteq_take n) in Hin.
    unfold translationCalls, factoryCalls in Hin. cbn [app] in Hin.
    repeat (apply elem_of_cons in Hin as [[=]|Hin]). by apply elem_of_nil in Hin. }
  destruct (passesChecks_dec c) as [Hc|Hc].
  - destruct (exporterHeaders_cases C (RemoteWrite c) w)
      as [[Hba Hh]|[(ba & Hba & Hf & Hh)|(ba & buff & err & w' & Hba & Hf & Hr & Hh)]].
    + destruct (otelConfig_checked_exact C c w _ _ Hc Hh)
        as (ps & g & n & _ & _ & _ & _ & Hn & Htr & Hres).
      rewrite Htr. cbn [trace app]. split; [by intros ?%Hnot|].
      intros (_ & ba & Hba' & _). congruence.
    + destruct (otelConfig_checked_exact C c w _ _ Hc Hh)
        as (ps & g & n & _ & _ & _ & _ & Hn & Htr & Hres).
      rewrite Htr. cbn [trace app]. split; [by intros ?%Hnot|].
      intros (_ & ba' & Hba' & Hp & Hne). congruence.
    + assert (Htr : exists g n, trace (run (otelConfig C c) w).2
                = (EvReadFile (PasswordFile ba) :: take n (translationCalls g))).
      { destruct err as [x|].
        - pose proof (otelConfig_checked C c w _ _ Hc Hh) as Hrun. cbv beta iota in Hrun.
          exists ∅, 0. by rewrite Hrun.
        - destruct (otelConfig_checked_exact C c w _ _ Hc Hh)
            as (ps & g & n & _ & _ & _ & _ & Hn & Htr & Hres).
          exists g, n. by rewrite Htr. }
      destruct Htr as (g & n & ->). rewrite elem_of_cons. split.
      * intros [[= ->]|?%Hnot]; [|done]. split; [done|]. eauto.
      * intros (_ & ba' & Hba' & Hp & Hne). left. congruence.
  - destruct (otelConfig_rejected C c w Hc) as (e & Hrun & _). rewrite Hrun.
    cbn [snd trace]. split; [by intros ?%elem_of_nil|].
    intros ((He & Hn & Hu) & _). destruct Hc as [Hc|[Hc|Hc]]; congruence.
Qed.

(** X6: [otelConfig] never hands back a dependency's error as it is: an
    error is one of the three made by the checks, or one of four
    wrappers around what the dependency returned. *)
Theorem otelConfig_errors c w e :
  (run (otelConfig C c) w).1 = inl e ->
  isConfigInvalid e = true \/
  exists format args x,
    e = fmt_Errorf format args (External x) /\
    format ∈ [ "unable to load password file %s %w";
               "failed to merge in mapstructure config %w";
               "failed to create factories %w";
               "failed to load OTel config %w" ].
Proof.
  intros He. destruct (passesChecks_dec c) as [Hc|Hc].
  - right.
    destruct (exporterHeaders C (RemoteWrite c) {| world := w; trace := [] |})
      as [[e1|headers] s1] eqn:Hh.
    + pose proof (otelConfig_checked C c w _ _ Hc Hh) as Hrun. cbv beta iota in Hrun.
      rewrite Hrun in He. injection He as ->.
      destruct (exporterHeaders_cases C (RemoteWrite c) w)
        as [[_ Hh']|[(ba & _ & _ & Hh')|(ba & buff & err & w' & _ & _ & _ & Hh')]];
        rewrite Hh' in Hh; try discriminate.
      destruct err; [|discriminate]. injection Hh as <- _.
      do 3 eexists. split; [done|]. set_solver.
    + destruct (otelConfig_checked_exact C c w _ _ Hc Hh)
        as (ps & g & n & _ & _ & _ & _ & _ & _ & Hres).
      rewrite He in Hres. destruct Hres as (x & [[_ ->]|[[_ ->]|[_ ->]]]).
      all: do 3 eexists; split; [done|]; set_solver.
  - left. destruct (otelConfig_rejected C c w Hc) as (e' & Hrun & Hi).
    rewrite Hrun in He. by injection He as <-.
Qed.

(** X7: a Translated Graph has the four sections exporters, processors,
    receivers and pipelines and no other; the receivers section is the
    configured mapping itself, the processors section holds the
    configured batch and queue settings unchanged, and the one pipeline
    is "traces". *)
Theorem otelConfig_graph_sections c w g :
  translatedGraph (trace (run (otelConfig C c) w).2) = Some g ->
  dom g = {[ "exporters"; "processors"; "receivers"; "pipelines" ]} /\
  g !! "receivers" = Some (VReceivers (Receivers c)) /\
  (exists ps,
     section g "processors" = Some ps /\
     ps !! "batch" = VBatch <$> Batch (RemoteWrite c) /\
     ps !! "queue" = VQueue <$> Queue (RemoteWrite c)) /\
  (exists p traces,
     section g "pipelines" = Some p /\ dom p = {[ "traces" ]} /\
     section p "traces" = Some traces /\
     dom traces = {[ "exporters"; "processors"; "receivers" ]}).
Proof.
  intros Hg. pose proof Hg as Hg'.
  apply otelConfig_graph_inv in Hg' as (Hc & headers & s1 & Hh & _).
  destruct (otelConfig_checked_exact C c w _ _ Hc Hh)
    as (ps & g' & n & Hb & Hq & _ & Hg' & Hn & Htr & _).
  assert (g = g') as ->.
  { rewrite Htr, translatedGraph_app in Hg by (by eapply exporterHeaders_no_graph).
    destruct n as [|n]; [lia|]. cbn in Hg. congruence. }
  subst g'. split_and!.
  - rewrite !dom_insert_L, dom_empty_L. set_solver.
  - by rewrite lookup_insert_ne, lookup_insert_eq.
  - exists ps. unfold section.
    by rewrite !lookup_insert_ne, lookup_insert_eq by done.
  - do 2 eexists. unfold section. rewrite lookup_insert_eq.
    split; [done|]. split; [by rewrite dom_singleton_L|].
    rewrite lookup_singleton_eq. split; [done|].
    rewrite !dom_insert_L, dom_empty_L. set_solver.
Qed.

(** X8: the exporter entry has the keys endpoint and headers only, and
    Authorization is the only header there can be: no other header
    name has a value, and without basic_auth the headers are the nil
    map. *)
Theorem otelConfig_only_authorization_header c w g :
  translatedGraph (trace (run (otelConfig C c) w).2) = Some g ->
  (forall h, h <> "Authorization" -> exporterHeader g "otlp" h = None) /\
  (exists e entry,
     section g "exporters" = Some e /\ section e "otlp" = Some entry /\
     dom entry = {[ "endpoint"; "headers" ]} /\
     (BasicAuth (RemoteWrite c) = None -> entry !! "headers" = Some (VHeaders None))).
Proof.
  intros Hg. apply otelConfig_graph_inv in Hg as (Hc & headers & s1 & Hh & Ht).
  assert (Hhs : (BasicAuth (RemoteWrite c) = None -> headers = None) /\
                forall h, h <> "Authorization" -> headers ≫= (fun hs => hs !! h) = None).
  { destruct (exporterHeaders_cases C (RemoteWrite c) w)
      as [[Hba Hh']|[(ba & Hba & _ & Hh')|(ba & buff & err & w' & Hba & _ & _ & Hh')]];
      rewrite Hh' in Hh.
    - injection Hh as <- _. done.
    - injection Hh as <- _. split; [congruence|].
      intros h Hne. cbn. by rewrite lookup_singleton_ne.
    - destruct err; [discriminate|]. injection Hh as <- _. split; [congruence|].
      intros h Hne. cbn. by rewrite lookup_singleton_ne. }
  destruct Hhs as [Hnil Hother]. split.
  - intros h Hne. rewrite (translates_header _ _ _ _ _ Ht). by apply Hother.
  - do 2 eexists. split; [apply Ht|]. unfold section. rewrite lookup_singleton_eq.
    split; [done|]. split.
    + rewrite !dom_insert_L, dom_empty_L. set_solver.
    + intros Hba. rewrite lookup_insert_ne, lookup_insert_eq by done.
      by rewrite (Hnil Hba).
Qed.


(** X2: when [tracingFactories] succeeds its registry holds what the
    four registrations returned: no extension, the jaeger, zipkin and
    otlp receivers, the otlp exporter, and the queued and batch
    processors. *)
Theorem tracingFactories_registry w fs s' :
  run (tracingFactories C) w = (inr fs, s') ->
  exists w1 w2 w3,
    component_MakeFactoryMap C KExtension [] w = ((Extensions fs, None), w1) /\
    component_MakeFactoryMap C KReceiver
      [ jaegerreceiver_NewFactory C; zipkinreceiver_Factory C; otlpreceiver_NewFactory C ] w1
      = ((ReceiversF fs, None), w2) /\
    component_MakeFactoryMap C KExporter [ otlpexporter_Factory C ] w2
      = ((Exporters fs, None), w3) /\
    component_MakeFactoryMap C KProcessor
      [ queuedprocessor_NewFactory C; batchprocessor_NewFactory C ] w3
      = ((Processors fs, None), world s').
Proof.
  unfold run, tracingFactories.
  repeat (monad_simpl; next_call); monad_simpl; intros [= <- <-].
  cbn [Extensions ReceiversF Exporters Processors world]. eauto 10.
Qed.

(** X3: the three checks are made in order: a configuration that is not
    enabled is refused as such whatever else is wrong with it, an
    enabled one without receivers for having none, and only then a
    missing url is reported. *)
Theorem otelConfig_check_order c w :
  (Enabled c = false ->
   (run (otelConfig C c) w).1 = inl (errors_New "tempo config not enabled")) /\
  (Enabled c = true -> Receivers c = ∅ ->
   (run (otelConfig C c) w).1
     = inl (errors_New "must have at least one configured receiver")) /\
  (Enabled c = true -> Receivers c <> ∅ -> URL (RemoteWrite c) = "" ->
   (run (otelConfig C c) w).1
     = inl (errors_New "must have a configured remote_write.url")).
Proof.
  split_and!.
  - intros He. rewrite otelConfig_rejected_exact by auto. by rewrite He.
  - intros He Hr. rewrite otelConfig_rejected_exact by auto.
    rewrite He. cbn [negb fst]. by rewrite decide_True.
  - intros He Hr Hu. rewrite otelConfig_rejected_exact by auto.
    rewrite He. cbn [negb fst]. by rewrite decide_False.
Qed.

(** *** [UnmarshalYAML] *)

(** X11: a configuration that went through [UnmarshalYAML] is enabled,
    whether or not the decoder reported an error, provided the decoder
    leaves the field it is told to skip alone; such a configuration is
    never refused for not being enabled. *)
Theorem UnmarshalYAML_enables c (unmarshal : Config L -> Config L * option (ExtErr L)) :
  (forall c0, Enabled (unmarshal c0).1 = Enabled c0) ->
  Enabled (UnmarshalYAML c unmarshal).1 = true /\
  forall w e,
    (run (otelConfig C (UnmarshalYAML c unmarshal).1) w).1 = inl e ->
    e <> errors_New "tempo config not enabled".
Proof.
  intros Hskip.
  assert (He : Enabled (UnmarshalYAML c unmarshal).1 = true).
  { unfold UnmarshalYAML.
    specialize (Hskip {| Enabled := true; RemoteWrite := RemoteWrite c;
                         Receivers := Receivers c |}).
    by destruct (unmarshal _) as [c' err]. }
  split; [done|]. intros w e Hrun ->.
  set (c' := (UnmarshalYAML c unmarshal).1) in *.
  destruct (passesChecks_dec c') as [Hc|Hc].
  - destruct (exporterHeaders C (RemoteWrite c') {| world := w; trace := [] |})
      as [[e1|headers] s1] eqn:Hh.
    + pose proof (otelConfig_checked C c' w _ _ Hc Hh) as Hrun'. cbv beta iota in Hrun'.
      rewrite Hrun' in Hrun. injection Hrun as ->.
      by apply exporterHeaders_shape in Hh as [_ [_ Hn]].
    + destruct (otelConfig_translates C c' w _ _ Hc Hh) as (_ & _ & _ & _ & _ & Hn).
      by apply Hn in Hrun as [? _].
  - rewrite otelConfig_rejected_exact in Hrun by done.
    rewrite He in Hrun. cbn [negb fst] in Hrun. by destruct (decide _).
Qed.

(** *** [New] and [Stop] *)



(** X15: a [New] that fails has made the logger first and has shut
    nothing down; its error is the logger's, wrapped, and then nothing
    else was called, or it is that of [buildAndStartPipeline] wrapped
    as "failed to create exporter", whichever stage it comes from. *)
Theorem New_failure c w e :
  (run (New C c) w).1 = inl e ->
  head (trace (run (New C c) w).2) = Some EvNewProduction /\
  List.filter isShutdown (trace (run (New C c) w).2) = [] /\
  exists lg err w1,
    zap_NewProduction C w = ((lg, err), w1) /\
    match err with
    | Some x =>
        e = fmt_Errorf "failed to create zap prod logger %w" [] (External x) /\
        (run (New C c) w).2 = {| world := w1; trace := [EvNewProduction] |}
    | None =>
        exists e',
          e = fmt_Errorf "failed to create exporter %w" [] e' /\
          (run (buildAndStartPipeline C
                  {| logger := lg; exporter := nil_Exporters L;
                     pipelines := nil_BuiltPipelines L;
                     receivers := nil_Receivers L |} c) w1).1 = inl e'
    end.
Proof.
  rewrite New_unfold.
  destruct (zap_NewProduction C w) as [[lg [x|]] w1] eqn:Hz.
  - cbn [fst snd trace]. intros [= <-]. split; [done|]. split; [done|].
    exists lg, (Some x), w1. done.
  - cbv zeta. cbn [fst snd trace].
    pose proof (buildAndStartPipeline_no_shutdown C
                  {| logger := lg; exporter := nil_Exporters L;
                     pipelines := nil_BuiltPipelines L;
                     receivers := nil_Receivers L |} c w1) as Hs.
    destruct (run (buildAndStartPipeline C _ c) w1) as [[e'|t'] s'] eqn:Hrun;
      cbn [fst snd] in *; [|discriminate].
    intros [= <-]. split; [done|]. split; [exact Hs|].
    exists lg, None, w1. split; [done|]. exists e'. split; [done|]. by rewrite Hrun.
Qed.

(** X16: [New] on a configuration that fails one of the three checks
    makes the logger and nothing else: no file is read, no factory
    registered, nothing built.  The error is the check's, wrapped
    twice. *)
Theorem New_rejects_invalid_config c w lg w1 :
  Enabled c = false \/ Receivers c = ∅ \/ URL (RemoteWrite c) = "" ->
  zap_NewProduction C w = ((lg, None), w1) ->
  exists e0,
    isConfigInvalid e0 = true /\
    run (New C c) w =
      ( inl (fmt_Errorf "failed to create exporter %w" []
               (fmt_Errorf "failed to load otelConfig from agent tempo config %w" [] e0)),
        {| world := w1; trace := [EvNewProduction] |} ).
Proof.
  intros Hc Hz. destruct (otelConfig_rejected C c w1 Hc) as (e0 & Hrun & Hi).
  exists e0. split; [done|].
  assert (Hb : forall t,
            run (buildAndStartPipeline C t c) w1 =
              (inl (fmt_Errorf "failed to load otelConfig from agent tempo config %w" [] e0),
               {| world := w1; trace := [] |})).
  { intros t. unfold run, buildAndStartPipeline. unfold bind at 1, wrapping at 1.
    unfold run in Hrun. by rewrite Hrun. }
  rewrite New_unfold, Hz. cbv zeta. by rewrite Hb.
Qed.

(** X17: [Stop] after a [New] that succeeded: the three shutdown calls
    are made on the receivers and pipelines that [New] built, after
    every build and start call; the exporters that were started are
    not shut down by any call. *)
Theorem New_then_Stop c w t s :
  run (New C c) w = (inr t, s) ->
  exists e1 w1 e2 w2 e3 w3,
    Receivers_ShutdownAll C (receivers t) (world s) = (e1, w1) /\
    BuiltPipelines_ShutdownProcessors C (pipelines t) w1 = (e2, w2) /\
    Receivers_ShutdownAll C (receivers t) w2 = (e3, w3) /\
    Stop C t s =
      (inr tt,
       {| world := w3;
          trace :=
            trace s ++
            EvShutdownReceivers :: logged "failed to shutdown receiver" e1 ++
            EvShutdownProcessors :: logged "failed to shutdown processors" e2 ++
            EvShutdownReceivers :: logged "failed to shutdown receivers" e3 |}) /\
    List.filter isLifecycle (trace s) = lifecycle /\
    List.filter isLifecycle (trace (Stop C t s).2) = lifecycle /\
    List.filter isShutdown (trace (Stop C t s).2)
      = [EvShutdownReceivers; EvShutdownProcessors; EvShutdownReceivers].
Proof.
  intros Hnew.
  destruct (Stop_unfold C t s) as (e1 & w1 & e2 & w2 & e3 & w3 & H1 & H2 & H3 & Hstop).
  exists e1, w1, e2, w2, e3, w3. do 4 (split; [done|]).
  assert (Htr : List.filter isLifecycle (trace s) = lifecycle /\
                List.filter isShutdown (trace s) = []).
  { revert Hnew. rewrite New_unfold.
    destruct (zap_NewProduction C w) as [[lg [x|]] w0]; [discriminate|].
    cbv zeta.
    destruct (run (buildAndStartPipeline C _ c) w0) as [[e|t'] s'] eqn:Hrun;
      cbn [fst snd]; [discriminate|].
    intros [= <- <-]. cbn [trace].
    destruct (buildAndStartPipeline_success_calls C _ _ _ _ _ Hrun)
      as (reads & g & -> & Hreads).
    unfold translationCalls, factoryCalls, lifecycle.
    by destruct Hreads as [->|(ba & _ & _ & ->)]. }
  destruct Htr as [Hl Hs]. split; [done|].
  rewrite Hstop. cbn [snd trace]. rewrite !List.filter_app, Hl, Hs.
  by destruct e1, e2, e3.
Qed.
(** X9: the Authorization value is "Basic " followed by characters of
    the base64 alphabet and padding only; whatever the username, the
    password or the password file hold, line breaks included, the
    value has no line feed and no carriage return in it. *)
Theorem otelConfig_authorization_value c w g v :
  translatedGraph (trace (run (otelConfig C c) w).2) = Some g ->
  exporterHeader g "otlp" "Authorization" = Some v ->
  exists enc,
    v = "Basic " +:+ enc /\
    Forall (fun ch => ch ∈ list_ascii_of_string base64.encodeStd \/ ch = "="%char)
           (list_ascii_of_string enc) /\
    Forall (fun ch => ch <> "010"%char /\ ch <> "013"%char) (list_ascii_of_string v).
Proof.
  intros Hg Hv. apply otelConfig_graph_inv in Hg as (Hc & headers & s1 & Hh & Ht).
  rewrite (translates_header _ _ _ _ _ Ht) in Hv.
  assert (Henc : exists src, v = "Basic " +:+ base64.EncodeToString src).
  { destruct (exporterHeaders_cases C (RemoteWrite c) w)
      as [[Hba Hh']|[(ba & Hba & _ & Hh')|(ba & buff & err & w' & Hba & _ & _ & Hh')]];
      rewrite Hh' in Hh.
    - injection Hh as <- _. discriminate.
    - injection Hh as <- _. cbn in Hv. rewrite lookup_singleton_eq in Hv.
      injection Hv as <-. eauto.
    - destruct err; [discriminate|]. injection Hh as <- _.
      cbn in Hv. rewrite lookup_singleton_eq in Hv. injection Hv as <-. eauto. }
  destruct Henc as [src ->]. exists (base64.EncodeToString src). split; [done|].
  assert (Hchars : Forall (fun ch => ch ∈ list_ascii_of_string base64.encodeStd \/
                                     ch = "="%char)
                     (list_ascii_of_string (base64.EncodeToString src))).
  { unfold base64.EncodeToString. rewrite list_ascii_of_string_of_list_ascii.
    apply base64_Encode_chars. }
  split; [done|].
  cbn [String.append list_ascii_of_string].
  repeat (constructor; [done|]).
  eapply Forall_impl; [exact Hchars|].
  intros ch [Hin| ->]; [|done].
  cbn in Hin.
  repeat (apply elem_of_cons in Hin as [->|Hin]; [done|]).
  by apply elem_of_nil in Hin.
Qed.

(** X10: the configuration [otelConfig] returns is the one Load made
    from the viper instance into which the Translated Graph was
    merged. *)
Theorem otelConfig_loads_the_graph c w cfg s' :
  run (otelConfig C c) w = (inr cfg, s') ->
  exists g v w1 w2 fs w3,
    translatedGraph (trace s') = Some g /\
    viper_MergeConfigMap C (viper_New C) g w1 = ((v, None), w2) /\
    config_Load C v fs w3 = ((cfg, None), world s').
Proof.
  intros Hrun. destruct (passesChecks_dec c) as [Hc|Hc].
  - destruct (exporterHeaders C (RemoteWrite c) {| world := w; trace := [] |})
      as [[e|headers] s1] eqn:Hh.
    + pose proof (otelConfig_checked C c w _ _ Hc Hh) as Hrun'. cbv beta iota in Hrun'.
      congruence.
    + destruct (otelConfig_checked_exact C c w _ _ Hc Hh)
        as (ps & g & n & _ & _ & _ & _ & _ & Htr & Hres).
      rewrite Hrun in Htr, Hres. cbn [fst snd] in *.
      destruct Hres as (-> & v & w2 & fs & w3 & Hm & Hl).
      exists g, v, (world s1), w2, fs, w3. split; [|done].
      rewrite Htr, translatedGraph_app; [done|]. by eapply exporterHeaders_no_graph.
  - destruct (otelConfig_rejected C c w Hc) as (e & Hrun' & _). congruence.
Qed.

End Package.

(** ** The rest of the package on the sample collector *)

Lemma otelConfig_errors_witness :
  (run (otelConfig Sample.C Sample.fromFile) Sample.quiet).1
    = inl (fmt_Errorf "unable to load password file %s %w" ["/etc/pw"]
             (External ("open /etc/pw: no such file or directory" : ExtErr Sample.L))) /\
  (isConfigInvalid
     (fmt_Errorf "unable to load password file %s %w" ["/etc/pw"]
        (External ("open /etc/pw: no such file or directory" : ExtErr Sample.L))) = true \/
   exists format args x,
     fmt_Errorf "unable to load password file %s %w" ["/etc/pw"]
       (External ("open /etc/pw: no such file or directory" : ExtErr Sample.L))
       = fmt_Errorf format args (External x) /\
     format ∈ [ "unable to load password file %s %w";
                "failed to merge in mapstructure config %w";
                "failed to create factories %w";
                "failed to load OTel config %w" ]).
Proof.
  split; [reflexivity|].
  apply (otelConfig_errors Sample.C Sample.fromFile Sample.quiet). reflexivity.
Defined.

Lemma otelConfig_graph_sections_witness :
  let g := default ∅ (translatedGraph
                        (trace (run (otelConfig Sample.C Sample.full) Sample.quiet).2)) in
  translatedGraph (trace (run (otelConfig Sample.C Sample.full) Sample.quiet).2) = Some g /\
  dom g = {[ "exporters"; "processors"; "receivers"; "pipelines" ]} /\
  g !! "receivers" = Some (VReceivers (Receivers Sample.full)).
Proof.
  intros g.
  assert (Hg : translatedGraph
                 (trace (run (otelConfig Sample.C Sample.full) Sample.quiet).2) = Some g)
    by (vm_compute; reflexivity).
  clearbody g. split; [exact Hg|].
  destruct (otelConfig_graph_sections Sample.C Sample.full Sample.quiet g Hg)
    as (Hd & Hr & _).
  by split.
Defined.

Lemma otelConfig_only_authorization_header_witness :
  let g := default ∅ (translatedGraph
                        (trace (run (otelConfig Sample.C Sample.plain) Sample.quiet).2)) in
  translatedGraph (trace (run (otelConfig Sample.C Sample.plain) Sample.quiet).2) = Some g /\
  (forall h, h <> "Authorization" -> exporterHeader g "otlp" h = None).
Proof.
  intros g.
  assert (Hg : translatedGraph
                 (trace (run (otelConfig Sample.C Sample.plain) Sample.quiet).2) = Some g)
    by (vm_compute; reflexivity).
  clearbody g. split; [exact Hg|].
  by destruct (otelConfig_only_authorization_header Sample.C Sample.plain Sample.quiet g Hg).
Defined.

Lemma tracingFactories_registry_witness :
  run (tracingFactories Sample.C) Sample.quiet
    = (inr {| Extensions := [] : FactoryMap Sample.L;
              ReceiversF := ["jaeger"; "zipkin"; "otlp"] : FactoryMap Sample.L;
              Processors := ["queued_retry"; "batch"] : FactoryMap Sample.L;
              Exporters := ["otlp"] : FactoryMap Sample.L |},
       (run (tracingFactories Sample.C) Sample.quiet).2) /\
  exists w3,
    component_MakeFactoryMap Sample.C KProcessor
      [ queuedprocessor_NewFactory Sample.C; batchprocessor_NewFactory Sample.C ] w3
      = ((["queued_retry"; "batch"] : FactoryMap Sample.L, None),
         world (run (tracingFactories Sample.C) Sample.quiet).2).
Proof.
  split; [reflexivity|].
  destruct (tracingFactories_registry Sample.C Sample.quiet _ _ eq_refl)
    as (w1 & w2 & w3 & _ & _ & _ & H4).
  by exists w3.
Defined.

Lemma otelConfig_check_order_witness :
  Enabled Sample.disabled = false /\
  (run (otelConfig Sample.C Sample.disabled) Sample.quiet).1
    = inl (errors_New "tempo config not enabled").
Proof.
  split; [reflexivity|].
  by apply (otelConfig_check_order Sample.C Sample.disabled Sample.quiet).
Defined.

Lemma UnmarshalYAML_enables_witness :
  (forall c0 : Config Sample.L,
     Enabled ((fun c : Config Sample.L =>
                 ({| Enabled := Enabled c;
                     RemoteWrite := RemoteWrite Sample.full;
                     Receivers := Receivers Sample.full |},
                  None : option (ExtErr Sample.L))) c0).1 = Enabled c0) /\
  Enabled (UnmarshalYAML Sample.disabled
             (fun c : Config Sample.L =>
                ({| Enabled := Enabled c;
                    RemoteWrite := RemoteWrite Sample.full;
                    Receivers := Receivers Sample.full |},
                 None : option (ExtErr Sample.L)))).1 = true.
Proof.
  split; [done|].
  by apply (UnmarshalYAML_enables Sample.C Sample.disabled).
Defined.



Lemma New_failure_witness :
  (run (New Sample.C Sample.plain) (Sample.breaking "Receivers.StartAll")).1
    = inl (fmt_Errorf "failed to create exporter %w" []
             (fmt_Errorf "failed to start receivers %w" []
                (External ("Receivers.StartAll failed" : ExtErr Sample.L)))) /\
  List.filter isLifecycle
    (trace (run (New Sample.C Sample.plain) (Sample.breaking "Receivers.StartAll")).2)
    = lifecycle /\
  List.filter isShutdown
    (trace (run (New Sample.C Sample.plain) (Sample.breaking "Receivers.StartAll")).2) = [].
Proof.
  assert (H : (run (New Sample.C Sample.plain) (Sample.breaking "Receivers.StartAll")).1
    = inl (fmt_Errorf "failed to create exporter %w" []
             (fmt_Errorf "failed to start receivers %w" []
                (External ("Receivers.StartAll failed" : ExtErr Sample.L)))))
    by (vm_compute; reflexivity).
  split; [exact H|]. split; [vm_compute; reflexivity|].
  by destruct (New_failure Sample.C _ _ _ H) as (_ & Hs & _).
Defined.

Lemma New_rejects_invalid_config_witness :
  (Enabled Sample.disabled = false \/ Receivers Sample.disabled = ∅ \/
   URL (RemoteWrite Sample.disabled) = "") /\
  zap_NewProduction Sample.C Sample.quiet = ((true : zap_Logger Sample.L, None), Sample.quiet) /\
  exists e0,
    isConfigInvalid e0 = true /\
    run (New Sample.C Sample.disabled) Sample.quiet =
      ( inl (fmt_Errorf "failed to create exporter %w" []
               (fmt_Errorf "failed to load otelConfig from agent tempo config %w" [] e0)),
        @Build_state Sample.L Sample.quiet [EvNewProduction] ).
Proof.
  assert (H : Enabled Sample.disabled = false \/ Receivers Sample.disabled = ∅ \/
              URL (RemoteWrite Sample.disabled) = "") by (left; reflexivity).
  split; [exact H|]. split; [reflexivity|].
  by apply (New_rejects_invalid_config Sample.C Sample.disabled Sample.quiet true Sample.quiet).
Defined.

Lemma New_then_Stop_witness :
  run (New Sample.C Sample.plain) Sample.quiet
    = (inr Sample.tempo, (run (New Sample.C Sample.plain) Sample.quiet).2) /\
  List.filter isShutdown
    (trace (Stop Sample.C Sample.tempo (run (New Sample.C Sample.plain) Sample.quiet).2).2)
    = [EvShutdownReceivers; EvShutdownProcessors; EvShutdownReceivers].
Proof.
  assert (H : run (New Sample.C Sample.plain) Sample.quiet
    = (inr Sample.tempo, (run (New Sample.C Sample.plain) Sample.quiet).2))
    by (vm_compute; reflexivity).
  split; [exact H|].
  by destruct (New_then_Stop Sample.C _ _ _ _ H)
    as (e1 & w1 & e2 & w2 & e3 & w3 & _ & _ & _ & _ & _ & _ & Hs).
Defined.

Lemma otelConfig_loads_the_graph_witness :
  run (otelConfig Sample.C Sample.plain) Sample.quiet
    = (inr tt, (run (otelConfig Sample.C Sample.plain) Sample.quiet).2) /\
  exists g v w1 w2 fs w3,
    translatedGraph (trace (run (otelConfig Sample.C Sample.plain) Sample.quiet).2) = Some g /\
    viper_MergeConfigMap Sample.C (viper_New Sample.C) g w1 = ((v, None), w2) /\
    config_Load Sample.C v fs w3
      = ((tt : configmodels_Config Sample.L, None),
         world (run (otelConfig Sample.C Sample.plain) Sample.quiet).2).
Proof.
  assert (H : run (otelConfig Sample.C Sample.plain) Sample.quiet
    = (inr tt, (run (otelConfig Sample.C Sample.plain) Sample.quiet).2))
    by (vm_compute; reflexivity).
  split; [exact H|].
  exact (otelConfig_loads_the_graph Sample.C _ _ _ _ H).
Defined.

Lemma otelConfig_authorization_value_witness :
  let g := default ∅ (translatedGraph
                        (trace (run (otelConfig Sample.C Sample.fromFile)
                                    (Sample.withFile "/etc/pw"
                                       ("secret " +:+ Sample.newline))).2)) in
  translatedGraph
    (trace (run (otelConfig Sample.C Sample.fromFile)
                (Sample.withFile "/etc/pw" ("secret " +:+ Sample.newline))).2) = Some g /\
  exporterHeader g "otlp" "Authorization" = Some "Basic dTpzZWNyZXQgCg==" /\
  Forall (fun ch => ch <> "010"%char /\ ch <> "013"%char)
         (list_ascii_of_string "Basic dTpzZWNyZXQgCg==").
Proof.
  intros g.
  assert (Hg : translatedGraph
                 (trace (run (otelConfig Sample.C Sample.fromFile)
                             (Sample.withFile "/etc/pw"
                                ("secret " +:+ Sample.newline))).2) = Some g)
    by (vm_compute; reflexivity).
  assert (Hv : exporterHeader g "otlp" "Authorization" = Some "Basic dTpzZWNyZXQgCg==")
    by (vm_compute; reflexivity).
  clearbody g. split; [exact Hg|]. split; [exact Hv|].
  by destruct (otelConfig_authorization_value Sample.C _ _ _ _ Hg Hv) as (enc & _ & _ & Hnl).
Defined.
